(** * crossflowlab: the cross-flow heat-exchanger calculations of [crossflow.py]

    The Python class [ThermoFluidProperties] is a dataclass of binary64
    numbers, some of them [Optional]; its methods read and write the fields
    of [self] and may raise.  The embedding keeps that shape:

    - numbers are the kernel's binary64 floats ([PrimFloat]), so that every
      arithmetic step rounds as the interpreter's does;
    - a method is a computation in a small state-and-exception monad over
      the record;
    - the routines of numpy and scipy that the class calls ([np.exp],
      power, [np.tanh], the MINPACK driver behind [fsolve]) are Section
      variables;
    - where a statement needs numbers out of those routines, binary64
      stand-ins (a truncated series, a solver outcome) are used and named
      as such. *)

From Stdlib Require Import ZArith QArith Qabs Bool List Lia Floats.
From Stdlib Require Import FunctionalExtensionality.

Set Warnings "-inexact-float".

(** ** Python values and failures *)

(** What can come out of a call.  The first two are the built-in exceptions
    the arithmetic of [crossflow.py] can raise; the last three are the
    error kinds of the specification's taxonomy, which the source never
    defines nor raises (see [source_raises_builtin_only]). *)
Inductive exn : Set :=
| ZeroDivisionError
| TypeError
| InvalidInput
| DegenerateCondition
| SolverNonConvergence.

Definition builtin (e : exn) : bool :=
  match e with
  | ZeroDivisionError | TypeError => true
  | _ => false
  end.

Inductive result (A : Type) : Type :=
| Ok (a : A)
| Raise (e : exn).
Arguments Ok {A} a.
Arguments Raise {A} e.

Module Py.
Local Open Scope float_scope.

(** [a / b] on Python floats: a zero divisor (of either sign) raises, any
    other divisor, NaN included, divides as IEEE 754 does. *)
Definition truediv (a b : float) : result float :=
  if b =? 0 then Raise ZeroDivisionError else Ok (a / b).

(** The built-in [min(a, b)] of two arguments keeps the first unless the
    second compares strictly smaller. *)
Definition min (a b : float) : float := if b <? a then b else a.

(** [math.isfinite]. *)
Definition isfinite (x : float) : bool := PrimFloat.is_finite x.

(** An operand of [*] or [/] that is still [None] raises [TypeError]. *)
Definition operand (o : option float) : result float :=
  match o with
  | Some x => Ok x
  | None => Raise TypeError
  end.
End Py.

(** ** The dataclass *)

Record ThermoFluidProperties : Set := mkThermoFluidProperties {
  cmin : option float;
  cr : option float;
  water_flow_rate_L_min : float;
  water_vol_flow_rate : option float;
  water_density : float;
  water_mass_flow_rate : option float;
  water_specific_heat : float;
  T_hot_in : float;
  T_hot_out : float;
  T_cold_in : float;
  T_cold_out : float;
  deltaT1 : float;
  deltaT2 : float;
  water_temp_change : float;
  air_temp_change : float;
  air_specific_heat : float;
  air_mass_flow_rate : option float
}.

(** Attribute assignment [self.f = v], one setter per attribute the methods
    write. *)
Definition set_cmin (v : option float) (s : ThermoFluidProperties) :=
  mkThermoFluidProperties v (cr s) (water_flow_rate_L_min s)
    (water_vol_flow_rate s) (water_density s) (water_mass_flow_rate s)
    (water_specific_heat s) (T_hot_in s) (T_hot_out s) (T_cold_in s)
    (T_cold_out s) (deltaT1 s) (deltaT2 s) (water_temp_change s)
    (air_temp_change s) (air_specific_heat s) (air_mass_flow_rate s).

Definition set_cr (v : option float) (s : ThermoFluidProperties) :=
  mkThermoFluidProperties (cmin s) v (water_flow_rate_L_min s)
    (water_vol_flow_rate s) (water_density s) (water_mass_flow_rate s)
    (water_specific_heat s) (T_hot_in s) (T_hot_out s) (T_cold_in s)
    (T_cold_out s) (deltaT1 s) (deltaT2 s) (water_temp_change s)
    (air_temp_change s) (air_specific_heat s) (air_mass_flow_rate s).

Definition set_water_vol_flow_rate (v : option float) (s : ThermoFluidProperties) :=
  mkThermoFluidProperties (cmin s) (cr s) (water_flow_rate_L_min s)
    v (water_density s) (water_mass_flow_rate s)
    (water_specific_heat s) (T_hot_in s) (T_hot_out s) (T_cold_in s)
    (T_cold_out s) (deltaT1 s) (deltaT2 s) (water_temp_change s)
    (air_temp_change s) (air_specific_heat s) (air_mass_flow_rate s).

Definition set_water_mass_flow_rate (v : option float) (s : ThermoFluidProperties) :=
  mkThermoFluidProperties (cmin s) (cr s) (water_flow_rate_L_min s)
    (water_vol_flow_rate s) (water_density s) v
    (water_specific_heat s) (T_hot_in s) (T_hot_out s) (T_cold_in s)
    (T_cold_out s) (deltaT1 s) (deltaT2 s) (water_temp_change s)
    (air_temp_change s) (air_specific_heat s) (air_mass_flow_rate s).

Definition set_air_mass_flow_rate (v : option float) (s : ThermoFluidProperties) :=
  mkThermoFluidProperties (cmin s) (cr s) (water_flow_rate_L_min s)
    (water_vol_flow_rate s) (water_density s) (water_mass_flow_rate s)
    (water_specific_heat s) (T_hot_in s) (T_hot_out s) (T_cold_in s)
    (T_cold_out s) (deltaT1 s) (deltaT2 s) (water_temp_change s)
    (air_temp_change s) (air_specific_heat s) v.

(** *** Class-level defaults

    The class body runs once.  Each default is the value bound to the name
    at that moment; the four differences are computed there, from the
    default temperatures, and stored as plain numbers. *)
Module Default.
Local Open Scope float_scope.

Definition cmin : option float := None.
Definition cr : option float := None.
Definition water_flow_rate_L_min : float := 2.10.
Definition water_vol_flow_rate : option float := None.
Definition water_density : float := 1000.0.
Definition water_mass_flow_rate : option float := None.
Definition water_specific_heat : float := 4.18.
Definition T_hot_in : float := 47.4.
Definition T_hot_out : float := 46.4.
Definition T_cold_in : float := 25.5.
Definition T_cold_out : float := 43.0.
Definition deltaT1 : float := T_hot_in - T_cold_out.
Definition deltaT2 : float := T_hot_out - T_cold_in.
Definition water_temp_change : float := T_hot_in - T_hot_out.
Definition air_temp_change : float := T_cold_out - T_cold_in.
Definition air_specific_heat : float := 1.005.
Definition air_mass_flow_rate : option float := None.
End Default.

(** *** The generated [__init__]

    Every field is a keyword parameter with its class-level default; a
    parameter the caller leaves out is [None] here. *)
Record init_args : Set := mkArgs {
  arg_cmin : option (option float);
  arg_cr : option (option float);
  arg_water_flow_rate_L_min : option float;
  arg_water_vol_flow_rate : option (option float);
  arg_water_density : option float;
  arg_water_mass_flow_rate : option (option float);
  arg_water_specific_heat : option float;
  arg_T_hot_in : option float;
  arg_T_hot_out : option float;
  arg_T_cold_in : option float;
  arg_T_cold_out : option float;
  arg_deltaT1 : option float;
  arg_deltaT2 : option float;
  arg_water_temp_change : option float;
  arg_air_temp_change : option float;
  arg_air_specific_heat : option float;
  arg_air_mass_flow_rate : option (option float)
}.

Definition no_args : init_args :=
  mkArgs None None None None None None None None None None None None None
         None None None None.

Definition or_default {A : Type} (supplied : option A) (default : A) : A :=
  match supplied with
  | Some v => v
  | None => default
  end.

Definition init (a : init_args) : ThermoFluidProperties :=
  {| cmin := or_default (arg_cmin a) Default.cmin;
     cr := or_default (arg_cr a) Default.cr;
     water_flow_rate_L_min :=
       or_default (arg_water_flow_rate_L_min a) Default.water_flow_rate_L_min;
     water_vol_flow_rate :=
       or_default (arg_water_vol_flow_rate a) Default.water_vol_flow_rate;
     water_density := or_default (arg_water_density a) Default.water_density;
     water_mass_flow_rate :=
       or_default (arg_water_mass_flow_rate a) Default.water_mass_flow_rate;
     water_specific_heat :=
       or_default (arg_water_specific_heat a) Default.water_specific_heat;
     T_hot_in := or_default (arg_T_hot_in a) Default.T_hot_in;
     T_hot_out := or_default (arg_T_hot_out a) Default.T_hot_out;
     T_cold_in := or_default (arg_T_cold_in a) Default.T_cold_in;
     T_cold_out := or_default (arg_T_cold_out a) Default.T_cold_out;
     deltaT1 := or_default (arg_deltaT1 a) Default.deltaT1;
     deltaT2 := or_default (arg_deltaT2 a) Default.deltaT2;
     water_temp_change :=
       or_default (arg_water_temp_change a) Default.water_temp_change;
     air_temp_change :=
       or_default (arg_air_temp_change a) Default.air_temp_change;
     air_specific_heat :=
       or_default (arg_air_specific_heat a) Default.air_specific_heat;
     air_mass_flow_rate :=
       or_default (arg_air_mass_flow_rate a) Default.air_mass_flow_rate |}.

(** Keyword arguments naming the four boundary temperatures only, as in
    [ThermoFluidProperties(T_hot_in=.., T_hot_out=.., T_cold_in=.., T_cold_out=..)]. *)
Definition temperatures (hi ho ci co : float) : init_args :=
  mkArgs None None None None None None None (Some hi) (Some ho) (Some ci)
         (Some co) None None None None None None.

(** ** Methods: state and exceptions *)

Definition M (A : Type) : Type :=
  ThermoFluidProperties -> result A * ThermoFluidProperties.

Definition ret {A : Type} (a : A) : M A := fun self => (Ok a, self).

Definition bind {A B : Type} (c : M A) (k : A -> M B) : M B :=
  fun self =>
    match c self with
    | (Ok a, self') => k a self'
    | (Raise e, self') => (Raise e, self')
    end.

Definition get : M ThermoFluidProperties := fun self => (Ok self, self).

Definition modify (f : ThermoFluidProperties -> ThermoFluidProperties) : M unit :=
  fun self => (Ok tt, f self).

Definition lift {A : Type} (r : result A) : M A := fun self => (r, self).

Declare Scope py_scope.
Delimit Scope py_scope with py.
Notation "x <- c ;; k" := (bind c (fun x => k))
  (at level 61, c at next level, right associativity) : py_scope.
Notation "c ;; k" := (bind c (fun _ => k))
  (at level 61, right associativity) : py_scope.

(** The value a call returns, and the object it leaves behind. *)
Definition returned {A : Type} (c : M A) (self : ThermoFluidProperties) : result A :=
  fst (c self).
Definition after {A : Type} (c : M A) (self : ThermoFluidProperties) : ThermoFluidProperties :=
  snd (c self).

Section Methods.
Local Open Scope float_scope.
Local Open Scope py_scope.

Definition calculate_duty : M float :=
  self <- get ;;
  m <- lift (Py.operand (water_mass_flow_rate self)) ;;
  ret (m * water_specific_heat self * water_temp_change self * 1000).

Definition calculate_water_mass_flow : M float :=
  self <- get ;;
  let vol := water_flow_rate_L_min self * (1 / 1000) * (1 / 60) in
  modify (set_water_vol_flow_rate (Some vol)) ;;
  self <- get ;;
  let mass := vol * water_density self in
  modify (set_water_mass_flow_rate (Some mass)) ;;
  ret mass.

Definition calculate_air_mass_flow : M float :=
  Q <- calculate_duty ;;
  self <- get ;;
  a <- lift (Py.truediv Q (air_specific_heat self * air_temp_change self * 1000)) ;;
  modify (set_air_mass_flow_rate (Some a)) ;;
  ret a.

Definition calculate_heat_capacity_rates : M (float * float) :=
  self <- get ;;
  mw <- lift (Py.operand (water_mass_flow_rate self)) ;;
  let C_h := mw * water_specific_heat self * 1000 in
  ma <- lift (Py.operand (air_mass_flow_rate self)) ;;
  let C_c := ma * air_specific_heat self * 1000 in
  ratio <- lift (Py.truediv C_c C_h) ;;
  modify (set_cr (Some ratio)) ;;
  (if C_h <=? C_c
   then modify (set_cmin (Some C_h))
   else modify (set_cmin (Some C_c))) ;;
  ret (C_h, C_c).

Definition calculate_actual_heat_transfer : M float :=
  rates <- calculate_heat_capacity_rates ;;
  self <- get ;;
  ret (fst rates * water_temp_change self).

Definition calculate_max_heat_transfer : M float :=
  calculate_heat_capacity_rates ;;
  self <- get ;;
  c <- lift (Py.operand (cmin self)) ;;
  ret (c * (T_hot_in self - T_cold_in self)).

Definition calculate_effectiveness : M float :=
  q_actual <- calculate_actual_heat_transfer ;;
  q_max <- calculate_max_heat_transfer ;;
  lift (Py.truediv q_actual q_max).

End Methods.

(** ** The NTU solve

    [np.exp] and the power [**] on an array run the platform's C library;
    the root finder is MINPACK's [hybrd] behind [scipy.optimize.fsolve].
    None of them is code of this repository: they are parameters here. *)

(** How [hybrd] ended (its [ier] flag, 1 to 5). *)
Inductive hybrd_status : Set :=
| Converged                 (* 1: a solution was found *)
| MaxfevReached             (* 2: the budget of function calls is spent *)
| XtolTooSmall              (* 3: no further improvement is possible *)
| SlowProgressJacobian      (* 4: poor progress over five Jacobians *)
| SlowProgressIterations.   (* 5: poor progress over ten iterations *)

Section Solver.
Local Open Scope float_scope.
Local Open Scope py_scope.

Variable np_exp : float -> float.
Variable np_power : float -> float -> float.
Variable hybrd : (float -> float) -> float -> float * hybrd_status.

(** [fsolve(func, x0)] without [full_output]: the last iterate is
    returned whatever the status; a status other than 1 only emits a
    [RuntimeWarning]. *)
Definition fsolve (func : float -> float) (x0 : float) : float :=
  fst (hybrd func x0).

(** The closure [effectiveness_equation(NTU)]. *)
Definition effectiveness_equation (NTU : float) : M float :=
  eps <- calculate_effectiveness ;;
  self <- get ;;
  c <- lift (Py.operand (cr self)) ;;
  inv <- lift (Py.truediv 1 c) ;;
  ret ((1 - eps)
       - np_exp (inv * np_power NTU 0.22
                 * (np_exp (- c * np_power NTU 0.78) - 1))).

(** The number a call of the closure yields on the object [self]. *)
Definition value_at (self : ThermoFluidProperties) (c : M float) : float :=
  match returned c self with
  | Ok v => v
  | Raise _ => nan
  end.

Definition ntu_guess : float := 1.0.

(** [fsolve] calls the closure at the seed before it iterates, so an
    exception of the closure leaves [fsolve] at once.  When that first
    call returns, every later call returns too and leaves the object as
    it is ([effectiveness_equation_repeatable]): the solver then sees a
    plain function of NTU. *)
Definition calculate_NTU_from_effectiveness : M float :=
  effectiveness_equation ntu_guess ;;
  self <- get ;;
  ret (fsolve (fun NTU => value_at self (effectiveness_equation NTU)) ntu_guess).

(** ** Fin efficiency, as the interpreter computes it *)

Variable np_tanh : float -> float.

(** Every divisor below is a nonzero constant ([fin_divisors_nonzero]), so
    the zero check of Python's division never fires. *)
Definition fin_argument : float :=
  let h := 100.0 in
  let k := 401.0 in
  let w := 16.1 / 1000 in
  let t := 0.11 / 1000 in
  let L := 3.72 / 1000 in
  let P := 2 * w + 2 * t in
  let A_c := w * t in
  let L_c := L + t / 2 in
  let m := sqrt ((h * P) / (k * A_c)) in
  m * L_c.

Definition calculate_fin_efficiency : float :=
  np_tanh fin_argument / fin_argument.

(** ** The script *)

Record report : Set := mkReport {
  out_water_mass : float;
  out_duty : float;
  out_air_mass : float;
  out_C_h : float;
  out_C_c : float;
  out_q_actual : float;
  out_q_max : float;
  out_effectiveness : float;
  out_ntu : float;
  out_UA : float;
  out_fin_efficiency : float
}.

(** The body of [if __name__ == "__main__"], run on [instance1]; each
    field of the report is one printed number. *)
Definition script : M report :=
  water_mass <- calculate_water_mass_flow ;;
  duty <- calculate_duty ;;
  air_mass <- calculate_air_mass_flow ;;
  rates <- calculate_heat_capacity_rates ;;
  let C_h := fst rates in
  let C_c := snd rates in
  q_actual <- calculate_actual_heat_transfer ;;
  q_max <- calculate_max_heat_transfer ;;
  effectiveness <- calculate_effectiveness ;;
  ntu <- calculate_NTU_from_effectiveness ;;
  let UA := ntu * C_c in
  let fin_efficiency := calculate_fin_efficiency in
  ret (mkReport water_mass duty air_mass C_h C_c q_actual q_max
                effectiveness ntu UA fin_efficiency).

Definition main : result report := returned script (init no_args).

End Solver.

(** ** Exact values of floats

    A finite binary64 number is a dyadic rational; tolerances are checked
    on that rational, with no rounding of their own. *)
Definition float_to_Q (x : float) : option Q :=
  match Prim2SF x with
  | S754_zero _ => Some 0%Q
  | S754_finite s m e =>
      let v := (inject_Z (Zpos m) * Qpower 2 e)%Q in
      Some (if s then Qopp v else v)
  | _ => None
  end.

(** [x] is finite and within [tol] of the rational [q]. *)
Definition within (tol q : Q) (x : float) : bool :=
  match float_to_Q x with
  | Some v => Qle_bool (Qabs (v - q)) tol
  | None => false
  end.

(** ** Stand-ins for the C library and for the solver

    Where a statement needs numbers out of [np.exp], [np.tanh] or the
    power, these binary64 routines stand for them: the exponential series
    cut after thirty terms, in Horner form (exact to the last digits for an
    argument of size about one), the hyperbolic tangent formed from it, and
    a power defined at base 1 only, where the C library returns exactly 1
    whatever the exponent. *)
Fixpoint exp_terms (n : nat) (j x : float) : float :=
  match n with
  | O => 1%float
  | S n' => (1 + x / j * exp_terms n' (j + 1) x)%float
  end.

Definition exp_series (x : float) : float := exp_terms 30 1%float x.

Definition tanh_series (x : float) : float :=
  let E := exp_series (2 * x)%float in ((E - 1) / (E + 1))%float.

Definition pow_at_one (x y : float) : float :=
  if (x =? 1)%float then 1%float else nan.

(** A solver that makes no progress from its seed: it hands the seed back
    with status 5. *)
Definition stalled_at_seed (func : float -> float) (x0 : float) : float * hybrd_status :=
  (x0, SlowProgressIterations).

(** ** The correlation of the docstring

    [ep = 1 - exp((1/Cr) NTU^0.22 (exp(-Cr NTU^0.78) - 1))], evaluated with
    the operations the closure uses. *)
Definition correlation (np_exp : float -> float) (np_power : float -> float -> float)
    (c NTU : float) : float :=
  (1 - np_exp ((1 / c) * np_power NTU 0.22
               * (np_exp (- c * np_power NTU 0.78) - 1)))%float.

(** Two finite floats within [tol] of one another. *)
Definition close (tol : Q) (x y : float) : bool :=
  match float_to_Q x, float_to_Q y with
  | Some a, Some b => Qle_bool (Qabs (a - b)) tol
  | _, _ => false
  end.

(** ** The hyperbolic tangent at the fin argument

    tanh(0.25505978796551693) is 0.249669010879344919...; [tanh_low] and
    [tanh_high] are the binary64 numbers 1e-12 below and above it. *)
Definition tanh_low : float := 0.24966901087834492%float.
Definition tanh_high : float := 0.2496690108803449%float.

(** The quotient the method forms from a value [y] of [np.tanh], tested
    against (0, 1] and against the decimals 0.97886 and 0.97887. *)
Definition efficiency_in_range (y : float) : bool :=
  let eta := (y / fin_argument)%float in
  (0 <? eta)%float && (eta <=? 1)%float
  && (0.97886 <? eta)%float && (eta <? 0.97887)%float.

(** The same test on the binary64 number of mantissa [m] in the binade of
    [tanh_low] and [tanh_high], and on [n] consecutive mantissas. *)
Definition mantissa_in_range (m : positive) : bool :=
  efficiency_in_range (SF2Prim (S754_finite false m (-55))).

Fixpoint mantissas_in_range (n : nat) (m : positive) : bool :=
  match n with
  | O => true
  | S n' => mantissa_in_range m && mantissas_in_range n' (Pos.succ m)
  end.

(** ** Vocabulary of the statements *)

(** The hot and cold capacity rates a state holds once both mass flows are
    known; the smaller of the two as the branch of
    [calculate_heat_capacity_rates] picks it. *)
Definition hot_rate (self : ThermoFluidProperties) (mw : float) : float :=
  (mw * water_specific_heat self * 1000)%float.
Definition cold_rate (self : ThermoFluidProperties) (ma : float) : float :=
  (ma * air_specific_heat self * 1000)%float.
Definition picked_rate (self : ThermoFluidProperties) (mw ma : float) : float :=
  if (hot_rate self mw <=? cold_rate self ma)%float
  then hot_rate self mw else cold_rate self ma.

(** The object once [calculate_heat_capacity_rates] has written to it. *)
Definition rated (self : ThermoFluidProperties) (mw ma : float) : ThermoFluidProperties :=
  set_cmin (Some (picked_rate self mw ma))
    (set_cr (Some (cold_rate self ma / hot_rate self mw)%float) self).

(** q_actual and q_max as the two heat-transfer methods form them. *)
Definition q_actual_of (self : ThermoFluidProperties) (mw : float) : float :=
  (hot_rate self mw * water_temp_change self)%float.
Definition q_max_of (self : ThermoFluidProperties) (mw ma : float) : float :=
  (picked_rate self mw ma * (T_hot_in self - T_cold_in self))%float.

(** The residual the closure hands to the solver, for a known effectiveness
    [eps] and capacity ratio [c]. *)
Definition residual (np_exp : float -> float) (np_power : float -> float -> float)
    (eps c NTU : float) : float :=
  ((1 - eps)
   - np_exp ((1 / c) * np_power NTU 0.22
             * (np_exp (- c * np_power NTU 0.78) - 1)))%float.

(** The two flow calculations the script starts with. *)
Definition flows : M float :=
  bind calculate_water_mass_flow (fun _ => calculate_air_mass_flow).

(** [ThermoFluidProperties(air_temp_change=d)]. *)
Definition cold_change (d : float) : init_args :=
  mkArgs None None None None None None None None None None None None None
         None (Some d) None None.

(** *** Three sentences of the specification, as they are worded *)

(** "Any computed effectiveness outside (0, 1] must raise
    DegenerateCondition or InvalidInput rather than being returned", and a
    zero q_max is signalled the same way. *)
Definition effectiveness_guarded (self : ThermoFluidProperties) : Prop :=
  match returned calculate_effectiveness self with
  | Ok eps => (0 <? eps)%float = true /\ (eps <=? 1)%float = true
  | Raise e => e = DegenerateCondition \/ e = InvalidInput
  end.

(** "A zero cold-side temperature change must raise DegenerateCondition." *)
Definition zero_cold_change_reported (self : ThermoFluidProperties) : Prop :=
  (air_temp_change self =? 0)%float = true ->
  returned calculate_air_mass_flow self = Raise DegenerateCondition.

(** A solver outcome that is no solution: the status is not 1, or the
    iterate is negative or not finite. *)
Definition spurious (outcome : float * hybrd_status) : bool :=
  match snd outcome with
  | Converged => false
  | _ => true
  end
  || (fst outcome <? 0)%float
  || negb (Py.isfinite (fst outcome)).

(** "Non-convergence is reported as SolverNonConvergence, never returned." *)
Definition non_convergence_reported
    (np_exp : float -> float) (np_power : float -> float -> float)
    (hybrd : (float -> float) -> float -> float * hybrd_status)
    (self : ThermoFluidProperties) : Prop :=
  forall self' (func : float -> float),
    self' = after (effectiveness_equation np_exp np_power ntu_guess) self ->
    func = (fun NTU => value_at self' (effectiveness_equation np_exp np_power NTU)) ->
    spurious (hybrd func ntu_guess) = true ->
    returned (calculate_NTU_from_effectiveness np_exp np_power hybrd) self
      = Raise SolverNonConvergence.

(** "Solving for NTU and substituting it back into the correlation
    reproduces the effectiveness within 1e-6", for an effectiveness in
    (0, 1) and a capacity ratio in (0, 1]. *)
Definition round_trip_holds
    (np_exp : float -> float) (np_power : float -> float -> float)
    (hybrd : (float -> float) -> float -> float * hybrd_status)
    (self : ThermoFluidProperties) : Prop :=
  forall eps c ntu,
    returned calculate_effectiveness self = Ok eps ->
    cr (after calculate_effectiveness self) = Some c ->
    (0 <? eps)%float = true -> (eps <? 1)%float = true ->
    (0 <? c)%float = true -> (c <=? 1)%float = true ->
    returned (calculate_NTU_from_effectiveness np_exp np_power hybrd) self = Ok ntu ->
    close (1 # 1000000) (correlation np_exp np_power c ntu) eps = true.

(** An object in range on which the solve stalls: a hot inlet at 1073.4
    with the other defaults, both mass flows computed. *)
Definition low_effectiveness : ThermoFluidProperties :=
  after flows (init (temperatures 1073.4 46.4 25.5 43.0)).

(** A solver that has spent its budget and stands at a negative iterate. *)
Definition stalled_hybrd (func : float -> float) (x0 : float) : float * hybrd_status :=
  ((-1)%float, MaxfevReached).

(** ** Vocabulary of the further statements *)

(** The fields no method assigns: the measured inputs, the boundary
    temperatures and the four differences. *)
Definition measured (s : ThermoFluidProperties) :=
  (water_flow_rate_L_min s, water_density s, water_specific_heat s,
   air_specific_heat s,
   (T_hot_in s, T_hot_out s, T_cold_in s, T_cold_out s),
   (deltaT1 s, deltaT2 s, water_temp_change s, air_temp_change s)).

(** The three fields the two flow calculations assign. *)
Definition mass_flows (s : ThermoFluidProperties) :=
  (water_vol_flow_rate s, water_mass_flow_rate s, air_mass_flow_rate s).

(** The eight numbers the arithmetic of the script reads. *)
Definition consulted (s : ThermoFluidProperties) :=
  (water_flow_rate_L_min s, water_density s, water_specific_heat s,
   air_specific_heat s, T_hot_in s, T_cold_in s,
   water_temp_change s, air_temp_change s).

(** A computation that leaves the observation [f] of the object as it
    found it, whether it returns or raises. *)
Definition keeps {A X : Type} (f : ThermoFluidProperties -> X) (c : M A) : Prop :=
  forall self, f (after c self) = f self.

(** What the two flow calculations compute and write. *)
Definition water_volume_of (self : ThermoFluidProperties) : float :=
  (water_flow_rate_L_min self * (1 / 1000) * (1 / 60))%float.
Definition water_mass_of (self : ThermoFluidProperties) : float :=
  (water_volume_of self * water_density self)%float.
Definition with_water (self : ThermoFluidProperties) : ThermoFluidProperties :=
  set_water_mass_flow_rate (Some (water_mass_of self))
    (set_water_vol_flow_rate (Some (water_volume_of self)) self).
Definition duty_of (self : ThermoFluidProperties) (mw : float) : float :=
  (mw * water_specific_heat self * water_temp_change self * 1000)%float.
Definition air_divisor (self : ThermoFluidProperties) : float :=
  (air_specific_heat self * air_temp_change self * 1000)%float.
Definition air_mass_of (self : ThermoFluidProperties) (mw : float) : float :=
  (duty_of self mw / air_divisor self)%float.
Definition with_air (self : ThermoFluidProperties) (mw : float) : ThermoFluidProperties :=
  set_air_mass_flow_rate (Some (air_mass_of self mw)) self.

(** The object once both mass flows are written. *)
Definition fueled (self : ThermoFluidProperties) : ThermoFluidProperties :=
  with_air (with_water self) (water_mass_of self).

(** The numbers the script prints when no division fails. *)
Definition report_of
    (np_exp : float -> float) (np_power : float -> float -> float)
    (hybrd : (float -> float) -> float -> float * hybrd_status)
    (np_tanh : float -> float) (self : ThermoFluidProperties) : report :=
  let mw := water_mass_of self in
  let s1 := with_water self in
  let ma := air_mass_of s1 mw in
  let s2 := fueled self in
  let eps := (q_actual_of s2 mw / q_max_of s2 mw ma)%float in
  let c := (cold_rate s2 ma / hot_rate s2 mw)%float in
  let ntu := fst (hybrd (residual np_exp np_power eps c) ntu_guess) in
  mkReport mw (duty_of s1 mw) ma (hot_rate s2 mw) (cold_rate s2 ma)
           (q_actual_of s2 mw) (q_max_of s2 mw ma) eps ntu
           (ntu * cold_rate s2 ma)%float (calculate_fin_efficiency np_tanh).

(** [ThermoFluidProperties(water_flow_rate_L_min=f)]. *)
Definition flow_rate (f : float) : init_args :=
  mkArgs None None (Some f) None None None None None None None None None None
         None None None None.

(** * Facts about binary64 comparison and zero

    Each goes through the specification of the primitive on [spec_float]. *)

Module FloatFacts.
Local Open Scope float_scope.

Lemma Prim2SF_zero : Prim2SF 0 = S754_zero false.
Proof. reflexivity. Qed.

Lemma Prim2SF_infinity : Prim2SF infinity = S754_infinity false.
Proof. reflexivity. Qed.

Lemma SFcompare_swap (x y : spec_float) :
  SFcompare y x = option_map CompOpp (SFcompare x y).
Proof.
  destruct x as [sx|sx| |sx mx ex], y as [sy|sy| |sy my ey]; simpl;
    try reflexivity;
    try (destruct sx; reflexivity);
    try (destruct sy; reflexivity);
    try (destruct sx, sy; reflexivity).
  destruct sx, sy; simpl; try reflexivity;
    rewrite (Z.compare_antisym ex ey);
    destruct (ex ?= ey)%Z; simpl; try reflexivity;
    change (Pos.compare_cont Eq my mx) with (Pos.compare my mx);
    change (Pos.compare_cont Eq mx my) with (Pos.compare mx my);
    rewrite (Pos.compare_antisym mx my);
    destruct (mx ?= my)%positive; reflexivity.
Qed.

(** A float is a NaN exactly when it is not equal to itself. *)
Lemma is_nan_spec (x : float) :
  is_nan x = match Prim2SF x with S754_nan => true | _ => false end.
Proof.
  unfold is_nan. rewrite eqb_spec. unfold SFeqb.
  destruct (Prim2SF x) as [s|s| |s m e]; simpl; try reflexivity.
  - destruct s; reflexivity.
  - destruct s; rewrite Z.compare_refl, Pos.compare_cont_refl; reflexivity.
Qed.

Lemma isfinite_spec (x : float) :
  Py.isfinite x =
  match Prim2SF x with
  | S754_zero _ | S754_finite _ _ _ => true
  | _ => false
  end.
Proof.
  unfold Py.isfinite, is_finite, is_infinity.
  rewrite is_nan_spec, eqb_spec, abs_spec, Prim2SF_infinity.
  destruct (Prim2SF x) as [s|s| |s m e]; reflexivity.
Qed.

(** Away from NaN, [<=] is the negation of the converse [<]. *)
Lemma leb_negb_ltb (x y : float) :
  is_nan x = false -> is_nan y = false ->
  (x <=? y) = negb (y <? x).
Proof.
  rewrite !is_nan_spec, leb_spec, ltb_spec.
  unfold SFleb, SFltb. rewrite (SFcompare_swap (Prim2SF x) (Prim2SF y)).
  destruct (Prim2SF x) as [sx|sx| |sx mx ex], (Prim2SF y) as [sy|sy| |sy my ey];
    intros Hx Hy; try discriminate;
    match goal with
    | |- context [SFcompare ?a ?b] => destruct (SFcompare a b) as [[ | | ]|] eqn:E
    end; simpl; try reflexivity;
    exfalso; revert E; simpl;
    try (destruct sx; discriminate); try (destruct sy; discriminate);
    try (destruct sx, sy; discriminate).
Qed.

Lemma positive_not_nan (x : float) : (0 <? x) = true -> is_nan x = false.
Proof.
  rewrite is_nan_spec, ltb_spec, Prim2SF_zero. unfold SFltb.
  destruct (Prim2SF x); simpl; congruence.
Qed.

Lemma positive_nonzero (x : float) : (0 <? x) = true -> (x =? 0) = false.
Proof.
  rewrite eqb_spec, ltb_spec, Prim2SF_zero. unfold SFltb, SFeqb.
  destruct (Prim2SF x) as [s|s| |s m e]; simpl; try congruence;
    destruct s; simpl; congruence.
Qed.

Lemma eqb_zero_spec (x : float) :
  (x =? 0) = match Prim2SF x with S754_zero _ => true | _ => false end.
Proof.
  rewrite eqb_spec, Prim2SF_zero. unfold SFeqb.
  destruct (Prim2SF x) as [s|s| |s m e]; simpl; try reflexivity;
    destruct s; reflexivity.
Qed.

(** A finite number times a zero is a zero. *)
Lemma mul_finite_zero (a z : float) :
  Py.isfinite a = true -> (z =? 0) = true -> (a * z =? 0) = true.
Proof.
  rewrite isfinite_spec, !eqb_zero_spec, mul_spec. unfold SF64mul.
  destruct (Prim2SF a) as [sa|sa| |sa ma ea], (Prim2SF z) as [sz|sz| |sz mz ez];
    simpl; congruence.
Qed.

Lemma mul_zero_finite (z a : float) :
  (z =? 0) = true -> Py.isfinite a = true -> (z * a =? 0) = true.
Proof.
  rewrite isfinite_spec, !eqb_zero_spec, mul_spec. unfold SF64mul.
  destruct (Prim2SF a) as [sa|sa| |sa ma ea], (Prim2SF z) as [sz|sz| |sz mz ez];
    simpl; congruence.
Qed.

(** The two ways of taking the smaller of two ordered numbers agree: the
    branch of [calculate_heat_capacity_rates] and Python's [min]. *)
Lemma branch_is_min (a b : float) :
  is_nan a = false -> is_nan b = false ->
  (if a <=? b then a else b) = Py.min a b.
Proof.
  intros Ha Hb. unfold Py.min. rewrite (leb_negb_ltb a b Ha Hb).
  destruct (b <? a); reflexivity.
Qed.
End FloatFacts.

(** * The methods *)

Local Open Scope float_scope.

Ltac run_method :=
  unfold returned, after, calculate_effectiveness,
    calculate_max_heat_transfer, calculate_actual_heat_transfer,
    calculate_heat_capacity_rates, calculate_air_mass_flow,
    calculate_water_mass_flow, calculate_duty,
    bind, get, lift, modify, ret, Py.operand, Py.truediv.

(** What [calculate_heat_capacity_rates] does when both mass flows are set:
    a zero hot rate raises before anything is written; otherwise the pair
    is returned, [cr] holds the quotient and [cmin] the branch's pick. *)
Lemma calculate_heat_capacity_rates_run self mw ma :
  water_mass_flow_rate self = Some mw ->
  air_mass_flow_rate self = Some ma ->
  calculate_heat_capacity_rates self =
  if hot_rate self mw =? 0
  then (Raise ZeroDivisionError, self)
  else (Ok (hot_rate self mw, cold_rate self ma), rated self mw ma).
Proof.
  intros Hw Ha. run_method. rewrite Hw, Ha. unfold rated, picked_rate.
  fold (hot_rate self mw). fold (cold_rate self ma).
  destruct (hot_rate self mw =? 0); [reflexivity|].
  destruct (hot_rate self mw <=? cold_rate self ma); reflexivity.
Qed.

(** Writing [cr] and [cmin] touches nothing the rates are computed from,
    so a second run writes the same two values again. *)
Lemma rated_again self mw ma : rated (rated self mw ma) mw ma = rated self mw ma.
Proof. destruct self; reflexivity. Qed.

Lemma rated_flows self mw ma :
  water_mass_flow_rate self = Some mw ->
  air_mass_flow_rate self = Some ma ->
  water_mass_flow_rate (rated self mw ma) = Some mw /\
  air_mass_flow_rate (rated self mw ma) = Some ma /\
  hot_rate (rated self mw ma) mw = hot_rate self mw /\
  cold_rate (rated self mw ma) ma = cold_rate self ma.
Proof. intros Hw Ha. destruct self; simpl in *. auto. Qed.

(** What [calculate_effectiveness] does when both mass flows are set.  It
    runs [calculate_heat_capacity_rates] twice, then divides; nothing looks
    at the quotient. *)
Lemma calculate_effectiveness_run self mw ma :
  water_mass_flow_rate self = Some mw ->
  air_mass_flow_rate self = Some ma ->
  calculate_effectiveness self =
  if hot_rate self mw =? 0
  then (Raise ZeroDivisionError, self)
  else (if q_max_of self mw ma =? 0
        then Raise ZeroDivisionError
        else Ok (q_actual_of self mw / q_max_of self mw ma),
        rated self mw ma).
Proof.
  intros Hw Ha.
  destruct (rated_flows self mw ma Hw Ha) as (Hw' & Ha' & Hh & Hc).
  unfold calculate_effectiveness, calculate_actual_heat_transfer,
    calculate_max_heat_transfer.
  unfold bind at 1 2.
  rewrite (calculate_heat_capacity_rates_run self mw ma Hw Ha).
  destruct (hot_rate self mw =? 0) eqn:Hz; [reflexivity|].
  unfold get at 1, ret at 1. unfold bind at 1 2. unfold bind at 1.
  rewrite (calculate_heat_capacity_rates_run _ mw ma Hw' Ha'), Hh, Hz.
  rewrite rated_again.
  unfold bind, get, lift, ret, Py.operand, Py.truediv. simpl fst.
  replace (cmin (rated self mw ma)) with (Some (picked_rate self mw ma))
    by (destruct self; reflexivity).
  replace (water_temp_change (rated self mw ma)) with (water_temp_change self)
    by (destruct self; reflexivity).
  replace (T_hot_in (rated self mw ma)) with (T_hot_in self)
    by (destruct self; reflexivity).
  replace (T_cold_in (rated self mw ma)) with (T_cold_in self)
    by (destruct self; reflexivity).
  fold (q_max_of self mw ma). fold (q_actual_of self mw).
  destruct (q_max_of self mw ma =? 0); reflexivity.
Qed.

(** C8: once [calculate_heat_capacity_rates] has run on a state whose hot
    capacity rate C_h is nonzero, the field [cr] holds C_c / C_h, cold over
    hot, whichever of the two rates is the smaller. *)
Theorem capacity_ratio_is_cold_over_hot self mw ma :
  water_mass_flow_rate self = Some mw ->
  air_mass_flow_rate self = Some ma ->
  (hot_rate self mw =? 0) = false ->
  returned calculate_heat_capacity_rates self
    = Ok (hot_rate self mw, cold_rate self ma) /\
  cr (after calculate_heat_capacity_rates self)
    = Some (cold_rate self ma / hot_rate self mw).
Proof.
  intros Hw Ha Hnz. unfold returned, after.
  rewrite (calculate_heat_capacity_rates_run self mw ma Hw Ha), Hnz.
  split; reflexivity.
Qed.

Lemma capacity_ratio_is_cold_over_hot_witness :
  returned calculate_heat_capacity_rates (after flows (init no_args))
    = Ok (146.3, 8.36)%float /\
  cr (after calculate_heat_capacity_rates (after flows (init no_args)))
    = Some (8.36 / 146.3)%float.
Proof.
  exact (capacity_ratio_is_cold_over_hot (after flows (init no_args))
           0.035000000000000003 0.0083184079601990053
           eq_refl eq_refl eq_refl).
Defined.

(** The same on an object whose cold rate is the larger one: the ratio is
    still cold over hot, here 2. *)
Example capacity_ratio_above_one :
  returned calculate_heat_capacity_rates (after flows (init (cold_change 0.5)))
    = Ok (146.3, 292.6)%float /\
  cr (after calculate_heat_capacity_rates (after flows (init (cold_change 0.5))))
    = Some 2%float /\
  cmin (after calculate_heat_capacity_rates (after flows (init (cold_change 0.5))))
    = Some 146.3%float.
Proof. repeat split; vm_compute; reflexivity. Qed.

(** C4: for positive, finite hot and cold capacity rates,
    [calculate_heat_capacity_rates] returns the pair (C_h, C_c) and leaves
    [cmin] equal to min(C_h, C_c). *)
Theorem cmin_is_min_of_rates self mw ma :
  water_mass_flow_rate self = Some mw ->
  air_mass_flow_rate self = Some ma ->
  (0 <? hot_rate self mw) = true -> Py.isfinite (hot_rate self mw) = true ->
  (0 <? cold_rate self ma) = true -> Py.isfinite (cold_rate self ma) = true ->
  returned calculate_heat_capacity_rates self
    = Ok (hot_rate self mw, cold_rate self ma) /\
  cmin (after calculate_heat_capacity_rates self)
    = Some (Py.min (hot_rate self mw) (cold_rate self ma)).
Proof.
  intros Hw Ha Hh _ Hc _. unfold returned, after.
  rewrite (calculate_heat_capacity_rates_run self mw ma Hw Ha).
  rewrite (FloatFacts.positive_nonzero _ Hh). simpl. split; [reflexivity|].
  unfold picked_rate. f_equal. apply FloatFacts.branch_is_min; apply FloatFacts.positive_not_nan;
    assumption.
Qed.

Lemma cmin_is_min_of_rates_witness :
  returned calculate_heat_capacity_rates (after flows (init no_args))
    = Ok (146.3, 8.36)%float /\
  cmin (after calculate_heat_capacity_rates (after flows (init no_args)))
    = Some 8.36%float.
Proof.
  exact (cmin_is_min_of_rates (after flows (init no_args))
           0.035000000000000003 0.0083184079601990053
           eq_refl eq_refl eq_refl eq_refl eq_refl eq_refl).
Defined.

(** No path of the arithmetic methods raises an error kind of the
    specification's taxonomy: whatever is raised is a built-in exception. *)
Lemma source_raises_builtin_only self e :
  returned calculate_duty self = Raise e \/
  returned calculate_water_mass_flow self = Raise e \/
  returned calculate_air_mass_flow self = Raise e \/
  returned calculate_heat_capacity_rates self = Raise e \/
  returned calculate_actual_heat_transfer self = Raise e \/
  returned calculate_max_heat_transfer self = Raise e \/
  returned calculate_effectiveness self = Raise e ->
  builtin e = true.
Proof.
  run_method. destruct self as [cm c wf wv wd [mw|] wsh thi tho tci tco d1 d2 wtc atc ash [ma|]];
    simpl;
    repeat match goal with
           | |- context [if ?b then _ else _] => destruct b; simpl
           end;
    intros H; decompose [or] H; clear H;
    match goal with
    | H : _ = Raise e |- _ => inversion H; reflexivity
    end.
Qed.

(** Equal inlet temperatures, and a cold inlet just below the hot one. *)
Example equal_inlets_run :
  returned calculate_effectiveness
    (after flows (init (temperatures 47.4 46.4 47.4 43.0)))
  = Raise ZeroDivisionError.
Proof. vm_compute. reflexivity. Qed.

Example close_inlets_run :
  returned calculate_effectiveness
    (after flows (init (temperatures 47.4 46.4 47.0 43.0)))
  = Ok 43.750000000000163.
Proof. vm_compute. reflexivity. Qed.

(** C1, as worded, fails: with equal inlet temperatures the call ends in
    the built-in [ZeroDivisionError], and with a cold inlet at 47.0 it
    returns an effectiveness near 43.75, far outside (0, 1]. *)
Lemma effectiveness_not_guarded :
  ~ effectiveness_guarded (after flows (init (temperatures 47.4 46.4 47.4 43.0)))
  /\ ~ effectiveness_guarded (after flows (init (temperatures 47.4 46.4 47.0 43.0))).
Proof.
  unfold effectiveness_guarded. rewrite equal_inlets_run, close_inlets_run.
  split.
  - intros [H|H]; discriminate H.
  - intros [_ H]. vm_compute in H. discriminate H.
Qed.

(** C1 (amended): when both mass flows are set and the hot capacity rate is
    nonzero, [calculate_effectiveness] returns the quotient q_actual / q_max
    as computed, with no check of its range, whenever q_max is nonzero, and
    ends in the built-in [ZeroDivisionError] when q_max is zero. *)
Theorem effectiveness_is_unchecked_quotient self mw ma :
  water_mass_flow_rate self = Some mw ->
  air_mass_flow_rate self = Some ma ->
  (hot_rate self mw =? 0) = false ->
  returned calculate_effectiveness self =
  if q_max_of self mw ma =? 0
  then Raise ZeroDivisionError
  else Ok (q_actual_of self mw / q_max_of self mw ma).
Proof.
  intros Hw Ha Hz. unfold returned.
  rewrite (calculate_effectiveness_run self mw ma Hw Ha), Hz. reflexivity.
Qed.

Lemma effectiveness_is_unchecked_quotient_witness :
  returned calculate_effectiveness (after flows (init no_args))
  = Ok 0.7990867579908677.
Proof.
  exact (effectiveness_is_unchecked_quotient (after flows (init no_args))
           0.035000000000000003 0.0083184079601990053
           eq_refl eq_refl eq_refl).
Defined.

(** C2, as worded, fails: on an object built with a zero cold-side change,
    after the water mass flow is known, the call ends in the built-in
    [ZeroDivisionError], not in DegenerateCondition. *)
Lemma zero_cold_change_not_reported :
  ~ zero_cold_change_reported
      (after calculate_water_mass_flow (init (cold_change 0))).
Proof.
  intros H. specialize (H eq_refl). vm_compute in H. discriminate H.
Qed.

(** C2 (amended): when the water mass flow is set, the air specific heat is
    finite and the cold-side temperature change is zero,
    [calculate_air_mass_flow] ends in Python's built-in
    [ZeroDivisionError], which reaches the caller as it is, and leaves the
    object untouched. *)
Theorem zero_cold_change_raises_ZeroDivisionError self mw :
  water_mass_flow_rate self = Some mw ->
  Py.isfinite (air_specific_heat self) = true ->
  (air_temp_change self =? 0) = true ->
  calculate_air_mass_flow self = (Raise ZeroDivisionError, self).
Proof.
  intros Hw Hfin Hz. run_method. rewrite Hw.
  assert (Hd : (air_specific_heat self * air_temp_change self * 1000 =? 0) = true).
  { apply FloatFacts.mul_zero_finite; [|reflexivity].
    apply FloatFacts.mul_finite_zero; assumption. }
  rewrite Hd. reflexivity.
Qed.

Lemma zero_cold_change_raises_ZeroDivisionError_witness :
  calculate_air_mass_flow (after calculate_water_mass_flow (init (cold_change 0)))
  = (Raise ZeroDivisionError, after calculate_water_mass_flow (init (cold_change 0))).
Proof.
  exact (zero_cold_change_raises_ZeroDivisionError
           (after calculate_water_mass_flow (init (cold_change 0)))
           0.035000000000000003 eq_refl eq_refl eq_refl).
Defined.

(** * The reference scenario *)

(** C6: on the documented defaults (2.10 L/min, 1000 kg/m3, 4.18 kJ/kgK,
    hot-side change 47.4 - 46.4) [calculate_water_mass_flow] returns
    2.10 * (1/1000) * (1/60) * 1000, which is the binary64 number nearest
    0.035 kg/s, and [calculate_duty] then returns the binary64 number
    nearest 146.3 W; both are within 1e-13 of the decimal value. *)
Theorem default_mass_flow_and_duty :
  returned calculate_water_mass_flow (init no_args)
    = Ok (2.10 * (1 / 1000) * (1 / 60) * 1000) /\
  returned calculate_water_mass_flow (init no_args) = Ok 0.035 /\
  within (1 # 10000000000000) (35 # 1000) 0.035 = true /\
  returned calculate_duty (after calculate_water_mass_flow (init no_args))
    = Ok 146.3 /\
  within (1 # 10000000000000) (1463 # 10) 146.3 = true.
Proof. repeat split; vm_compute; reflexivity. Qed.

(** * Frozen temperature differences *)

(** Whatever else is passed, a difference field the caller leaves out holds
    the class-level number. *)
Lemma omitted_differences_are_defaults (a : init_args) :
  arg_deltaT1 a = None -> arg_deltaT2 a = None ->
  arg_water_temp_change a = None -> arg_air_temp_change a = None ->
  deltaT1 (init a) = Default.deltaT1 /\
  deltaT2 (init a) = Default.deltaT2 /\
  water_temp_change (init a) = Default.water_temp_change /\
  air_temp_change (init a) = Default.air_temp_change.
Proof. intros H1 H2 H3 H4. simpl. rewrite H1, H2, H3, H4. auto. Qed.

(** An object built for a hot inlet at 80 and a cold outlet at 30 still
    carries the end difference of the defaults, not 50. *)
Example stale_deltaT1 :
  let self := init (temperatures 80 75 20 30) in
  T_hot_in self = 80 /\ T_cold_out self = 30 /\
  (deltaT1 self =? T_hot_in self - T_cold_out self) = false.
Proof. repeat split. Qed.

(** C10: the four difference fields are computed once, from the class-level
    temperatures: 47.4 - 43.0 (within 1e-14 of 4.4), 20.9, 1.0 and 17.5.
    An object built with any four boundary temperatures stores those
    temperatures but keeps the four default differences, and what is
    computed downstream from the fields is what the defaults give: the
    duty, the air mass flow, the capacity rates and q_actual do not move,
    and q_max is the default C_min times the supplied inlet difference. *)
Theorem temperature_differences_are_frozen (hi ho ci co : float) :
  let self := init (temperatures hi ho ci co) in
  let reference := init no_args in
  (T_hot_in self = hi /\ T_hot_out self = ho /\
   T_cold_in self = ci /\ T_cold_out self = co) /\
  (deltaT1 self = Default.deltaT1 /\ deltaT2 self = Default.deltaT2 /\
   water_temp_change self = Default.water_temp_change /\
   air_temp_change self = Default.air_temp_change) /\
  (within (1 # 100000000000000) (44 # 10) Default.deltaT1 = true /\
   Default.deltaT2 = 20.9 /\
   Default.water_temp_change = 1.0 /\
   Default.air_temp_change = 17.5) /\
  (returned (bind calculate_water_mass_flow (fun _ => calculate_duty)) self
     = returned (bind calculate_water_mass_flow (fun _ => calculate_duty)) reference /\
   returned flows self = returned flows reference /\
   returned (bind flows (fun _ => calculate_heat_capacity_rates)) self
     = returned (bind flows (fun _ => calculate_heat_capacity_rates)) reference /\
   returned (bind flows (fun _ => calculate_actual_heat_transfer)) self
     = returned (bind flows (fun _ => calculate_actual_heat_transfer)) reference /\
   returned (bind flows (fun _ => calculate_max_heat_transfer)) self
     = Ok (8.36 * (hi - ci))).
Proof. repeat split; vm_compute; reflexivity. Qed.

(** * The NTU solve *)

Section SolverFacts.
Variable np_exp : float -> float.
Variable np_power : float -> float -> float.
Variable hybrd : (float -> float) -> float -> float * hybrd_status.

(** One call of the closure on an object whose mass flows are set and whose
    effectiveness evaluates: it yields the residual at the effectiveness and
    capacity ratio of the object, unless the ratio is zero. *)
Lemma effectiveness_equation_run self mw ma NTU :
  water_mass_flow_rate self = Some mw ->
  air_mass_flow_rate self = Some ma ->
  (hot_rate self mw =? 0) = false ->
  (q_max_of self mw ma =? 0) = false ->
  effectiveness_equation np_exp np_power NTU self =
  (if cold_rate self ma / hot_rate self mw =? 0
   then Raise ZeroDivisionError
   else Ok (residual np_exp np_power
              (q_actual_of self mw / q_max_of self mw ma)
              (cold_rate self ma / hot_rate self mw) NTU),
   rated self mw ma).
Proof.
  intros Hw Ha Hh Hq. unfold effectiveness_equation. unfold bind at 1.
  rewrite (calculate_effectiveness_run self mw ma Hw Ha), Hh, Hq.
  unfold bind, get, lift, ret, Py.operand, Py.truediv, residual.
  replace (cr (rated self mw ma))
    with (Some (cold_rate self ma / hot_rate self mw))
    by (destruct self; reflexivity).
  destruct (cold_rate self ma / hot_rate self mw =? 0); reflexivity.
Qed.

(** The same facts hold of the object the first call leaves, so every later
    call of the closure returns the residual and writes nothing new. *)
Lemma effectiveness_equation_stable self mw ma NTU :
  water_mass_flow_rate self = Some mw ->
  air_mass_flow_rate self = Some ma ->
  (hot_rate self mw =? 0) = false ->
  (q_max_of self mw ma =? 0) = false ->
  effectiveness_equation np_exp np_power NTU (rated self mw ma)
  = effectiveness_equation np_exp np_power NTU self.
Proof.
  intros Hw Ha Hh Hq.
  destruct (rated_flows self mw ma Hw Ha) as (Hw' & Ha' & Hh' & Hc').
  assert (Hq' : q_max_of (rated self mw ma) mw ma = q_max_of self mw ma)
    by (destruct self; reflexivity).
  assert (Ha'' : q_actual_of (rated self mw ma) mw = q_actual_of self mw)
    by (destruct self; reflexivity).
  rewrite (effectiveness_equation_run (rated self mw ma) mw ma NTU Hw' Ha');
    rewrite ?Hh', ?Hq'; try assumption.
  rewrite (effectiveness_equation_run self mw ma NTU Hw Ha Hh Hq).
  rewrite Hc', Ha'', rated_again. reflexivity.
Qed.

(** If the first call of the closure returns, then every later call, at
    any NTU, returns the residual for one and the same effectiveness and
    ratio and leaves the object as the first call left it: past its first
    call the solver iterates on a plain function. *)
Lemma effectiveness_equation_repeatable self x v :
  returned (effectiveness_equation np_exp np_power x) self = Ok v ->
  exists eps c, forall y,
    effectiveness_equation np_exp np_power y
      (after (effectiveness_equation np_exp np_power x) self)
    = (Ok (residual np_exp np_power eps c y),
       after (effectiveness_equation np_exp np_power x) self).
Proof.
  unfold returned, after. intros H.
  destruct (water_mass_flow_rate self) as [mw|] eqn:Hw;
    [|exfalso; revert H; unfold effectiveness_equation; run_method;
      rewrite Hw; discriminate].
  destruct (air_mass_flow_rate self) as [ma|] eqn:Ha;
    [|exfalso; revert H; unfold effectiveness_equation; run_method;
      rewrite Hw, Ha; discriminate].
  destruct (hot_rate self mw =? 0) eqn:Hh;
    [exfalso; revert H; unfold effectiveness_equation; unfold bind at 1;
     rewrite (calculate_effectiveness_run self mw ma Hw Ha), Hh; discriminate|].
  destruct (q_max_of self mw ma =? 0) eqn:Hq;
    [exfalso; revert H; unfold effectiveness_equation; unfold bind at 1;
     rewrite (calculate_effectiveness_run self mw ma Hw Ha), Hh, Hq; discriminate|].
  rewrite (effectiveness_equation_run self mw ma x Hw Ha Hh Hq) in H |- *.
  destruct (cold_rate self ma / hot_rate self mw =? 0) eqn:Hc;
    [discriminate H|].
  exists (q_actual_of self mw / q_max_of self mw ma),
         (cold_rate self ma / hot_rate self mw).
  intros y. simpl snd.
  rewrite (effectiveness_equation_stable self mw ma y Hw Ha Hh Hq).
  rewrite (effectiveness_equation_run self mw ma y Hw Ha Hh Hq), Hc.
  reflexivity.
Qed.

Lemma calculate_NTU_from_effectiveness_run self mw ma :
  water_mass_flow_rate self = Some mw ->
  air_mass_flow_rate self = Some ma ->
  (hot_rate self mw =? 0) = false ->
  (q_max_of self mw ma =? 0) = false ->
  (cold_rate self ma / hot_rate self mw =? 0) = false ->
  calculate_NTU_from_effectiveness np_exp np_power hybrd self =
  (Ok (fst (hybrd (residual np_exp np_power
                     (q_actual_of self mw / q_max_of self mw ma)
                     (cold_rate self ma / hot_rate self mw))
                  ntu_guess)),
   rated self mw ma).
Proof.
  intros Hw Ha Hh Hq Hc. unfold calculate_NTU_from_effectiveness.
  unfold bind at 1.
  rewrite (effectiveness_equation_run self mw ma ntu_guess Hw Ha Hh Hq), Hc.
  unfold bind, get, ret, fsolve. do 3 f_equal. f_equal.
  apply functional_extensionality. intros NTU. unfold value_at, returned.
  rewrite (effectiveness_equation_stable self mw ma NTU Hw Ha Hh Hq).
  rewrite (effectiveness_equation_run self mw ma NTU Hw Ha Hh Hq), Hc.
  reflexivity.
Qed.

(** Whatever the solver does, [calculate_NTU_from_effectiveness] raises
    nothing but what the closure raises at the seed. *)
Lemma calculate_NTU_from_effectiveness_raises self e :
  returned (calculate_NTU_from_effectiveness np_exp np_power hybrd) self = Raise e ->
  returned (effectiveness_equation np_exp np_power ntu_guess) self = Raise e.
Proof.
  unfold returned, calculate_NTU_from_effectiveness, bind.
  destruct (effectiveness_equation np_exp np_power ntu_guess self) as [[v|e'] s'];
    simpl; [discriminate | auto].
Qed.

Lemma effectiveness_equation_raises_builtin self NTU e :
  returned (effectiveness_equation np_exp np_power NTU) self = Raise e ->
  builtin e = true.
Proof.
  unfold returned, effectiveness_equation. unfold bind at 1.
  destruct (calculate_effectiveness self) as [[eps|e'] s'] eqn:E.
  - unfold bind, get, lift, ret, Py.operand, Py.truediv.
    destruct (cr s') as [c|]; simpl.
    + destruct (c =? 0); simpl; intros H; inversion H; reflexivity.
    + intros H; inversion H; reflexivity.
  - simpl. intros H; inversion H; subst e'.
    apply (source_raises_builtin_only self e).
    do 6 right. unfold returned. rewrite E. reflexivity.
Qed.

End SolverFacts.

(** C3, as worded, fails: on the default object, with a solver that has
    spent its budget at the iterate -1, the call returns -1.  (The solver
    here never calls the closure, so the stand-ins for the C library play no
    part.) *)
Lemma non_convergence_not_reported :
  ~ non_convergence_reported (fun x => x) (fun x _ => x) stalled_hybrd
      (after flows (init no_args)).
Proof.
  intros H. specialize (H _ _ eq_refl eq_refl eq_refl).
  vm_compute in H. discriminate H.
Qed.

(** C3 (amended): [calculate_NTU_from_effectiveness] checks nothing about
    the solve.  Whenever the effectiveness and the capacity ratio evaluate
    (both mass flows set; C_h, q_max and C_c / C_h nonzero) it returns the
    last iterate of the root finder on the residual, seeded at 1.0, as it
    is: whatever the solver's status and whatever the value. *)
Theorem NTU_is_last_iterate_unchecked
    (np_exp : float -> float) (np_power : float -> float -> float)
    (hybrd : (float -> float) -> float -> float * hybrd_status)
    self mw ma :
  water_mass_flow_rate self = Some mw ->
  air_mass_flow_rate self = Some ma ->
  (hot_rate self mw =? 0) = false ->
  (q_max_of self mw ma =? 0) = false ->
  (cold_rate self ma / hot_rate self mw =? 0) = false ->
  returned (calculate_NTU_from_effectiveness np_exp np_power hybrd) self
  = Ok (fst (hybrd (residual np_exp np_power
                      (q_actual_of self mw / q_max_of self mw ma)
                      (cold_rate self ma / hot_rate self mw))
                   ntu_guess)).
Proof.
  intros Hw Ha Hh Hq Hc. unfold returned.
  rewrite (calculate_NTU_from_effectiveness_run np_exp np_power hybrd
             self mw ma Hw Ha Hh Hq Hc).
  reflexivity.
Qed.

Lemma NTU_is_last_iterate_unchecked_witness :
  returned (calculate_NTU_from_effectiveness (fun x => x) (fun x _ => x) stalled_hybrd)
           (after flows (init no_args))
  = Ok (-1).
Proof.
  exact (NTU_is_last_iterate_unchecked (fun x => x) (fun x _ => x) stalled_hybrd
           (after flows (init no_args))
           0.035000000000000003 0.0083184079601990053
           eq_refl eq_refl eq_refl eq_refl eq_refl).
Defined.

(** The failure kind of the taxonomy is never raised, whatever the solver
    and the object. *)
Lemma NTU_never_raises_SolverNonConvergence
    (np_exp : float -> float) (np_power : float -> float -> float)
    (hybrd : (float -> float) -> float -> float * hybrd_status) self :
  returned (calculate_NTU_from_effectiveness np_exp np_power hybrd) self
  <> Raise SolverNonConvergence.
Proof.
  intros H.
  apply calculate_NTU_from_effectiveness_raises in H.
  apply effectiveness_equation_raises_builtin in H. discriminate H.
Qed.

(** * The script *)

(** Whatever object the script body runs on, the conductance it prints is
    the product of the NTU it printed and the cold rate it printed. *)
Lemma script_UA
    (np_exp : float -> float) (np_power : float -> float -> float)
    (hybrd : (float -> float) -> float -> float * hybrd_status)
    (np_tanh : float -> float) self rep :
  returned (script np_exp np_power hybrd np_tanh) self = Ok rep ->
  out_UA rep = out_ntu rep * out_C_c rep.
Proof.
  unfold returned, script.
  repeat (unfold bind at 1;
          match goal with
          | |- context [match ?c ?s with _ => _ end] =>
              destruct (c s) as [[?|?] ?]; simpl; [|discriminate]
          end).
  unfold ret. simpl. intros H. inversion H. reflexivity.
Qed.

(** C9: the script publishes UA = NTU * C_c, where NTU is what
    [calculate_NTU_from_effectiveness] returned and C_c is the cold
    capacity rate returned by [calculate_heat_capacity_rates].  On the
    default object C_c is 8.36 W/K; on an object whose cold rate, 292.6 W/K,
    is above the hot rate (so that C_min is the hot rate, 146.3 W/K) the
    factor is still C_c. *)
Theorem published_UA_is_NTU_times_cold_rate
    (np_exp : float -> float) (np_power : float -> float -> float)
    (hybrd : (float -> float) -> float -> float * hybrd_status)
    (np_tanh : float -> float) :
  (exists rep,
     main np_exp np_power hybrd np_tanh = Ok rep /\
     returned (calculate_NTU_from_effectiveness np_exp np_power hybrd)
              (after flows (init no_args)) = Ok (out_ntu rep) /\
     returned (bind flows (fun _ => calculate_heat_capacity_rates)) (init no_args)
       = Ok (out_C_h rep, out_C_c rep) /\
     out_C_c rep = 8.36 /\
     out_UA rep = out_ntu rep * out_C_c rep) /\
  (exists rep,
     returned (script np_exp np_power hybrd np_tanh) (init (cold_change 0.5)) = Ok rep /\
     returned (calculate_NTU_from_effectiveness np_exp np_power hybrd)
              (after flows (init (cold_change 0.5))) = Ok (out_ntu rep) /\
     out_C_c rep = 292.6 /\
     cmin (after (script np_exp np_power hybrd np_tanh) (init (cold_change 0.5)))
       = Some 146.3 /\
     out_UA rep = out_ntu rep * out_C_c rep).
Proof.
  split; eexists; (split; [vm_compute; reflexivity|]);
    repeat split; vm_compute; reflexivity.
Qed.

(** * Fin efficiency *)

Local Close Scope float_scope.

(** The argument of the hyperbolic tangent, as the interpreter rounds it,
    and the quotient the method returns. *)
Lemma fin_argument_value : fin_argument = 0.25505978796551693%float.
Proof. vm_compute. reflexivity. Qed.

Lemma fin_divisors_nonzero :
  ((1000 =? 0) || (2 =? 0) || (401.0 * ((16.1 / 1000) * (0.11 / 1000)) =? 0)
   || (fin_argument =? 0))%float = false.
Proof. vm_compute. reflexivity. Qed.

Lemma calculate_fin_efficiency_value (np_tanh : float -> float) :
  calculate_fin_efficiency np_tanh
  = (np_tanh 0.25505978796551693 / 0.25505978796551693)%float.
Proof. unfold calculate_fin_efficiency. rewrite fin_argument_value. reflexivity. Qed.

Local Open Scope float_scope.

(** ** The returned efficiency

    [np.tanh] is outside the repository; what the method returns is
    bounded for every [np.tanh] whose value at the argument lies within
    1e-12 of the hyperbolic tangent.  The window holds 72058 binary64
    numbers, all in one binade; the quotient is checked on each. *)

Lemma mantissas_in_range_sound (n : nat) :
  forall m p : positive,
    mantissas_in_range n m = true ->
    (Z.pos m <= Z.pos p < Z.pos m + Z.of_nat n)%Z ->
    mantissa_in_range p = true.
Proof.
  induction n as [|n IH]; intros m p H Hp; [lia|].
  simpl in H. apply andb_prop in H. destruct H as [H1 H2].
  destruct (Pos.eq_dec m p) as [->|Hne]; [exact H1|].
  apply (IH (Pos.succ m)); [exact H2|lia].
Qed.

Lemma tanh_window_checked :
  mantissas_in_range (Z.to_nat 72058) 8995274114861396 = true.
Proof. vm_compute. reflexivity. Qed.

Lemma tanh_low_mantissa :
  Prim2SF tanh_low = S754_finite false 8995274114861396 (-55).
Proof. vm_compute. reflexivity. Qed.

Lemma tanh_high_mantissa :
  Prim2SF tanh_high = S754_finite false 8995274114933453 (-55).
Proof. vm_compute. reflexivity. Qed.

Lemma compare_cont_Lt (p q : positive) :
  PosDef.Pos.compare_cont Eq p q = Lt -> (Z.pos p < Z.pos q)%Z.
Proof.
  intros H. change ((p ?= q)%positive = Lt) in H.
  rewrite Pos.compare_lt_iff in H. lia.
Qed.

Lemma compare_cont_Eq (p q : positive) :
  PosDef.Pos.compare_cont Eq p q = Eq -> (Z.pos p = Z.pos q)%Z.
Proof.
  intros H. change ((p ?= q)%positive = Eq) in H.
  rewrite Pos.compare_eq_iff in H. lia.
Qed.

(** A float between [tanh_low] and [tanh_high] is one of the numbers of the
    window. *)
Lemma tanh_window_mantissa (y : float) :
  (tanh_low <=? y) = true -> (y <=? tanh_high) = true ->
  exists m : positive,
    (8995274114861396 <= Z.pos m <= 8995274114933453)%Z /\
    y = SF2Prim (S754_finite false m (-55)).
Proof.
  intros H1 H2. rewrite leb_spec in H1, H2.
  rewrite tanh_low_mantissa in H1. rewrite tanh_high_mantissa in H2.
  pose proof (SF2Prim_Prim2SF y) as Hy.
  destruct (Prim2SF y) as [s|s| |s m e].
  - discriminate H1.
  - destruct s; discriminate.
  - discriminate H1.
  - destruct s; [discriminate H1|].
    unfold SFleb, SFcompare in H1, H2.
    destruct (Z.compare_spec (-55) e) as [He|He|He];
      destruct (Z.compare_spec e (-55)) as [He'|He'|He'];
      try lia; try discriminate.
    subst e.
    destruct (PosDef.Pos.compare_cont Eq 8995274114861396 m) eqn:C1;
      try discriminate H1;
      destruct (PosDef.Pos.compare_cont Eq m 8995274114933453) eqn:C2;
      try discriminate H2;
      exists m; (split; [|symmetry; exact Hy]);
      first [apply compare_cont_Lt in C1 | apply compare_cont_Eq in C1];
      first [apply compare_cont_Lt in C2 | apply compare_cont_Eq in C2];
      lia.
Qed.

Lemma efficiency_in_window (y : float) :
  (tanh_low <=? y) = true -> (y <=? tanh_high) = true ->
  efficiency_in_range y = true.
Proof.
  intros H1 H2.
  destruct (tanh_window_mantissa y H1 H2) as (m & Hm & ->).
  apply (mantissas_in_range_sound (Z.to_nat 72058) 8995274114861396 m).
  - exact tanh_window_checked.
  - rewrite Z2Nat.id by lia. lia.
Qed.

(** C7: [calculate_fin_efficiency] returns tanh(m L_c) / (m L_c) with
    m = sqrt(h P / (k A_c)), P = 2 w + 2 t, A_c = w t and L_c = L + t / 2,
    the width, thickness and length being the millimetre constants divided
    by 1000; m L_c is 0.25505978796551693, and for every [np.tanh] whose
    value there is within 1e-12 of the hyperbolic tangent the returned
    efficiency lies in (0, 1], between 0.97886 and 0.97887. *)
Theorem fin_efficiency_formula_and_bounds (np_tanh : float -> float) :
  let h := 100.0 in
  let k := 401.0 in
  let w := 16.1 / 1000 in
  let t := 0.11 / 1000 in
  let L := 3.72 / 1000 in
  let P := 2 * w + 2 * t in
  let A_c := w * t in
  let L_c := L + t / 2 in
  let m := sqrt ((h * P) / (k * A_c)) in
  (tanh_low <=? np_tanh (m * L_c)) = true ->
  (np_tanh (m * L_c) <=? tanh_high) = true ->
  calculate_fin_efficiency np_tanh = np_tanh (m * L_c) / (m * L_c) /\
  m * L_c = 0.25505978796551693 /\
  (0 <? calculate_fin_efficiency np_tanh) = true /\
  (calculate_fin_efficiency np_tanh <=? 1) = true /\
  (0.97886 <? calculate_fin_efficiency np_tanh) = true /\
  (calculate_fin_efficiency np_tanh <? 0.97887) = true.
Proof.
  intros h k w t L P A_c L_c m H1 H2.
  change (m * L_c) with fin_argument in *.
  pose proof (efficiency_in_window _ H1 H2) as Hr.
  unfold efficiency_in_range in Hr. cbv zeta in Hr.
  fold (calculate_fin_efficiency np_tanh) in Hr.
  repeat (apply andb_prop in Hr; destruct Hr as [Hr ?]).
  repeat split; assumption.
Qed.

Lemma fin_efficiency_formula_and_bounds_witness :
  calculate_fin_efficiency tanh_series
    = tanh_series 0.25505978796551693 / 0.25505978796551693 /\
  sqrt ((100.0 * (2 * (16.1 / 1000) + 2 * (0.11 / 1000)))
        / (401.0 * ((16.1 / 1000) * (0.11 / 1000))))
    * (3.72 / 1000 + 0.11 / 1000 / 2) = 0.25505978796551693 /\
  (0 <? calculate_fin_efficiency tanh_series) = true /\
  (calculate_fin_efficiency tanh_series <=? 1) = true /\
  (0.97886 <? calculate_fin_efficiency tanh_series) = true /\
  (calculate_fin_efficiency tanh_series <? 0.97887) = true.
Proof.
  exact (fin_efficiency_formula_and_bounds tanh_series eq_refl eq_refl).
Defined.

Local Close Scope float_scope.

(** * Further properties of the methods *)

Local Open Scope float_scope.

Lemma bind_ok {A B : Type} (c : M A) (k : A -> M B) s a s' :
  c s = (Ok a, s') -> bind c k s = k a s'.
Proof. intros H. unfold bind. rewrite H. reflexivity. Qed.

Lemma bind_raise {A B : Type} (c : M A) (k : A -> M B) s e s' :
  c s = (Raise e, s') -> bind c k s = (Raise e, s').
Proof. intros H. unfold bind. rewrite H. reflexivity. Qed.

(** ** Each method in closed form *)

Lemma calculate_water_mass_flow_run self :
  calculate_water_mass_flow self = (Ok (water_mass_of self), with_water self).
Proof. reflexivity. Qed.

Lemma calculate_duty_run self mw :
  water_mass_flow_rate self = Some mw ->
  calculate_duty self = (Ok (duty_of self mw), self).
Proof.
  intros Hw. unfold calculate_duty, bind, get, lift, ret, Py.operand.
  rewrite Hw. reflexivity.
Qed.

Lemma calculate_air_mass_flow_run self mw :
  water_mass_flow_rate self = Some mw ->
  calculate_air_mass_flow self =
  if air_divisor self =? 0 then (Raise ZeroDivisionError, self)
  else (Ok (air_mass_of self mw), with_air self mw).
Proof.
  intros Hw. unfold calculate_air_mass_flow.
  rewrite (bind_ok _ _ _ _ _ (calculate_duty_run self mw Hw)).
  unfold bind, get, lift, modify, ret, Py.truediv, with_air, air_mass_of.
  fold (air_divisor self). destruct (air_divisor self =? 0); reflexivity.
Qed.

Lemma calculate_actual_heat_transfer_run self mw ma :
  water_mass_flow_rate self = Some mw ->
  air_mass_flow_rate self = Some ma ->
  calculate_actual_heat_transfer self =
  if hot_rate self mw =? 0 then (Raise ZeroDivisionError, self)
  else (Ok (q_actual_of self mw), rated self mw ma).
Proof.
  intros Hw Ha. unfold calculate_actual_heat_transfer, bind.
  rewrite (calculate_heat_capacity_rates_run self mw ma Hw Ha).
  destruct (hot_rate self mw =? 0); [reflexivity|].
  unfold get, ret. simpl fst. unfold q_actual_of.
  replace (water_temp_change (rated self mw ma)) with (water_temp_change self)
    by (destruct self; reflexivity).
  reflexivity.
Qed.

Lemma calculate_max_heat_transfer_run self mw ma :
  water_mass_flow_rate self = Some mw ->
  air_mass_flow_rate self = Some ma ->
  calculate_max_heat_transfer self =
  if hot_rate self mw =? 0 then (Raise ZeroDivisionError, self)
  else (Ok (q_max_of self mw ma), rated self mw ma).
Proof.
  intros Hw Ha. unfold calculate_max_heat_transfer. unfold bind at 1.
  rewrite (calculate_heat_capacity_rates_run self mw ma Hw Ha).
  destruct (hot_rate self mw =? 0); [reflexivity|].
  unfold bind, get, lift, ret, Py.operand, q_max_of.
  destruct self; reflexivity.
Qed.

Lemma rated_reads self mw ma :
  picked_rate (rated self mw ma) mw ma = picked_rate self mw ma /\
  q_actual_of (rated self mw ma) mw = q_actual_of self mw /\
  q_max_of (rated self mw ma) mw ma = q_max_of self mw ma.
Proof. destruct self; repeat split. Qed.

Lemma fueled_reads self :
  water_mass_flow_rate (with_water self) = Some (water_mass_of self) /\
  water_mass_flow_rate (fueled self) = Some (water_mass_of self) /\
  air_mass_flow_rate (fueled self)
    = Some (air_mass_of (with_water self) (water_mass_of self)).
Proof. repeat split. Qed.

(** ** Calls made out of order *)

Lemma rates_without_flows self :
  water_mass_flow_rate self = None \/ air_mass_flow_rate self = None ->
  calculate_heat_capacity_rates self = (Raise TypeError, self).
Proof.
  intros H. run_method.
  destruct (water_mass_flow_rate self); [|reflexivity].
  destruct H as [H|H]; [discriminate H|]. rewrite H. reflexivity.
Qed.

Lemma effectiveness_without_flows self :
  water_mass_flow_rate self = None \/ air_mass_flow_rate self = None ->
  calculate_effectiveness self = (Raise TypeError, self).
Proof.
  intros H. unfold calculate_effectiveness, calculate_actual_heat_transfer.
  apply bind_raise. apply bind_raise. apply rates_without_flows. exact H.
Qed.

(** X1: nothing but [calculate_water_mass_flow] can run on an object whose
    water mass flow is still [None]: every other method, and the NTU solve
    with any solver, ends in [TypeError] and writes nothing. *)
Theorem methods_need_water_mass_flow
    (np_exp : float -> float) (np_power : float -> float -> float)
    (hybrd : (float -> float) -> float -> float * hybrd_status) self :
  water_mass_flow_rate self = None ->
  calculate_duty self = (Raise TypeError, self) /\
  calculate_air_mass_flow self = (Raise TypeError, self) /\
  calculate_heat_capacity_rates self = (Raise TypeError, self) /\
  calculate_actual_heat_transfer self = (Raise TypeError, self) /\
  calculate_max_heat_transfer self = (Raise TypeError, self) /\
  calculate_effectiveness self = (Raise TypeError, self) /\
  calculate_NTU_from_effectiveness np_exp np_power hybrd self
    = (Raise TypeError, self).
Proof.
  intros H. pose proof (rates_without_flows self (or_introl H)) as Hr.
  assert (Hd : calculate_duty self = (Raise TypeError, self))
    by (run_method; rewrite H; reflexivity).
  repeat split.
  - exact Hd.
  - unfold calculate_air_mass_flow. apply bind_raise. exact Hd.
  - exact Hr.
  - unfold calculate_actual_heat_transfer. apply bind_raise. exact Hr.
  - unfold calculate_max_heat_transfer. apply bind_raise. exact Hr.
  - apply effectiveness_without_flows. left. exact H.
  - unfold calculate_NTU_from_effectiveness, effectiveness_equation.
    apply bind_raise. apply bind_raise. apply effectiveness_without_flows.
    left. exact H.
Qed.

Lemma methods_need_water_mass_flow_witness :
  calculate_duty (init no_args) = (Raise TypeError, init no_args) /\
  calculate_air_mass_flow (init no_args) = (Raise TypeError, init no_args) /\
  calculate_heat_capacity_rates (init no_args) = (Raise TypeError, init no_args) /\
  calculate_actual_heat_transfer (init no_args) = (Raise TypeError, init no_args) /\
  calculate_max_heat_transfer (init no_args) = (Raise TypeError, init no_args) /\
  calculate_effectiveness (init no_args) = (Raise TypeError, init no_args) /\
  calculate_NTU_from_effectiveness (fun x => x) (fun x _ => x) stalled_hybrd
    (init no_args) = (Raise TypeError, init no_args).
Proof.
  exact (methods_need_water_mass_flow (fun x => x) (fun x _ => x) stalled_hybrd
           (init no_args) eq_refl).
Defined.

(** X2: the methods from [calculate_heat_capacity_rates] on need the air
    mass flow as well.  When [calculate_air_mass_flow] has been skipped,
    each of them, and the NTU solve with any solver, ends in [TypeError]
    and writes nothing, whatever the water mass flow. *)
Theorem rate_methods_need_air_mass_flow
    (np_exp : float -> float) (np_power : float -> float -> float)
    (hybrd : (float -> float) -> float -> float * hybrd_status) self :
  air_mass_flow_rate self = None ->
  calculate_heat_capacity_rates self = (Raise TypeError, self) /\
  calculate_actual_heat_transfer self = (Raise TypeError, self) /\
  calculate_max_heat_transfer self = (Raise TypeError, self) /\
  calculate_effectiveness self = (Raise TypeError, self) /\
  calculate_NTU_from_effectiveness np_exp np_power hybrd self
    = (Raise TypeError, self).
Proof.
  intros H. pose proof (rates_without_flows self (or_intror H)) as Hr.
  repeat split.
  - exact Hr.
  - unfold calculate_actual_heat_transfer. apply bind_raise. exact Hr.
  - unfold calculate_max_heat_transfer. apply bind_raise. exact Hr.
  - apply effectiveness_without_flows. right. exact H.
  - unfold calculate_NTU_from_effectiveness, effectiveness_equation.
    apply bind_raise. apply bind_raise. apply effectiveness_without_flows.
    right. exact H.
Qed.

Lemma rate_methods_need_air_mass_flow_witness :
  let self := after calculate_water_mass_flow (init no_args) in
  calculate_heat_capacity_rates self = (Raise TypeError, self) /\
  calculate_actual_heat_transfer self = (Raise TypeError, self) /\
  calculate_max_heat_transfer self = (Raise TypeError, self) /\
  calculate_effectiveness self = (Raise TypeError, self) /\
  calculate_NTU_from_effectiveness (fun x => x) (fun x _ => x) stalled_hybrd self
    = (Raise TypeError, self).
Proof.
  exact (rate_methods_need_air_mass_flow (fun x => x) (fun x _ => x) stalled_hybrd
           (after calculate_water_mass_flow (init no_args)) eq_refl).
Defined.

(** ** Calling a method twice *)

(** A call that left the object as it was does the same when repeated. *)
Lemma unchanged_again {A : Type} (c : M A) self r :
  c self = (r, self) ->
  c (after c self) = (returned c self, after c self).
Proof. intros H. unfold after, returned. rewrite H. simpl. exact H. Qed.

Lemma air_mass_flow_again self :
  calculate_air_mass_flow (after calculate_air_mass_flow self)
  = (returned calculate_air_mass_flow self, after calculate_air_mass_flow self).
Proof.
  destruct (water_mass_flow_rate self) as [mw|] eqn:Hw.
  - pose proof (calculate_air_mass_flow_run self mw Hw) as Hr.
    destruct (air_divisor self =? 0) eqn:Hd;
      [exact (unchanged_again _ _ _ Hr)|].
    unfold after, returned. rewrite Hr. simpl fst. simpl snd.
    assert (Hw' : water_mass_flow_rate (with_air self mw) = Some mw)
      by (destruct self; simpl in *; exact Hw).
    rewrite (calculate_air_mass_flow_run _ mw Hw').
    change (air_divisor (with_air self mw)) with (air_divisor self).
    rewrite Hd. destruct self; reflexivity.
  - apply (unchanged_again _ _ (Raise TypeError)).
    run_method. rewrite Hw. reflexivity.
Qed.

Lemma rates_again self :
  calculate_heat_capacity_rates (after calculate_heat_capacity_rates self)
  = (returned calculate_heat_capacity_rates self,
     after calculate_heat_capacity_rates self).
Proof.
  destruct (water_mass_flow_rate self) as [mw|] eqn:Hw;
    [|exact (unchanged_again _ _ _ (rates_without_flows self (or_introl Hw)))].
  destruct (air_mass_flow_rate self) as [ma|] eqn:Ha;
    [|exact (unchanged_again _ _ _ (rates_without_flows self (or_intror Ha)))].
  destruct (rated_flows self mw ma Hw Ha) as (Hw' & Ha' & Hh & Hc).
  pose proof (calculate_heat_capacity_rates_run self mw ma Hw Ha) as Hr.
  destruct (hot_rate self mw =? 0) eqn:Hz;
    [exact (unchanged_again _ _ _ Hr)|].
  unfold after, returned. rewrite Hr. simpl fst. simpl snd.
  rewrite (calculate_heat_capacity_rates_run _ mw ma Hw' Ha'), Hh, Hc, Hz.
  rewrite rated_again. reflexivity.
Qed.

Lemma effectiveness_again self :
  calculate_effectiveness (after calculate_effectiveness self)
  = (returned calculate_effectiveness self, after calculate_effectiveness self).
Proof.
  destruct (water_mass_flow_rate self) as [mw|] eqn:Hw;
    [|exact (unchanged_again _ _ _
               (effectiveness_without_flows self (or_introl Hw)))].
  destruct (air_mass_flow_rate self) as [ma|] eqn:Ha;
    [|exact (unchanged_again _ _ _
               (effectiveness_without_flows self (or_intror Ha)))].
  destruct (rated_flows self mw ma Hw Ha) as (Hw' & Ha' & Hh & Hc).
  destruct (rated_reads self mw ma) as (Hp & Hqa & Hqm).
  pose proof (calculate_effectiveness_run self mw ma Hw Ha) as He.
  destruct (hot_rate self mw =? 0) eqn:Hz;
    [exact (unchanged_again _ _ _ He)|].
  unfold after, returned. rewrite He. simpl fst. simpl snd.
  rewrite (calculate_effectiveness_run _ mw ma Hw' Ha'), Hh, Hz, Hqm, Hqa.
  rewrite rated_again. reflexivity.
Qed.

(** X3: calling a method a second time changes nothing.  Run on the object
    its first call left behind, [calculate_water_mass_flow],
    [calculate_air_mass_flow], [calculate_heat_capacity_rates] or
    [calculate_effectiveness] returns what the first call returned, or
    raises what it raised, and leaves that object as it is.  This is what
    lets the methods call one another freely. *)
Theorem second_call_changes_nothing self :
  calculate_water_mass_flow (after calculate_water_mass_flow self)
    = (returned calculate_water_mass_flow self,
       after calculate_water_mass_flow self) /\
  calculate_air_mass_flow (after calculate_air_mass_flow self)
    = (returned calculate_air_mass_flow self,
       after calculate_air_mass_flow self) /\
  calculate_heat_capacity_rates (after calculate_heat_capacity_rates self)
    = (returned calculate_heat_capacity_rates self,
       after calculate_heat_capacity_rates self) /\
  calculate_effectiveness (after calculate_effectiveness self)
    = (returned calculate_effectiveness self,
       after calculate_effectiveness self).
Proof.
  split; [|split; [|split]].
  - destruct self; reflexivity.
  - apply air_mass_flow_again.
  - apply rates_again.
  - apply effectiveness_again.
Qed.

(** A call that raises is repeated all the same: with equal inlets the
    second [calculate_effectiveness] raises again, on the object the first
    one wrote to. *)
Example second_call_raises_again :
  let self := after flows (init (temperatures 47.4 46.4 47.4 43.0)) in
  returned calculate_effectiveness self = Raise ZeroDivisionError /\
  after calculate_effectiveness self <> self /\
  calculate_effectiveness (after calculate_effectiveness self)
    = (Raise ZeroDivisionError, after calculate_effectiveness self).
Proof.
  repeat split; try (vm_compute; reflexivity).
  vm_compute. intros H. discriminate H.
Qed.

(** ** What the methods leave alone *)

Lemma keeps_ret {A X : Type} (f : ThermoFluidProperties -> X) (a : A) :
  keeps f (ret a).
Proof. intros self. reflexivity. Qed.

Lemma keeps_get {X : Type} (f : ThermoFluidProperties -> X) : keeps f get.
Proof. intros self. reflexivity. Qed.

Lemma keeps_lift {A X : Type} (f : ThermoFluidProperties -> X) (r : result A) :
  keeps f (lift r).
Proof. intros self. reflexivity. Qed.

Lemma keeps_modify {X : Type} (f : ThermoFluidProperties -> X) g :
  (forall self, f (g self) = f self) -> keeps f (modify g).
Proof. intros H self. apply H. Qed.

Lemma keeps_bind {A B X : Type} (f : ThermoFluidProperties -> X)
    (c : M A) (k : A -> M B) :
  keeps f c -> (forall a, keeps f (k a)) -> keeps f (bind c k).
Proof.
  intros Hc Hk self. unfold after, bind. specialize (Hc self).
  unfold after in Hc. destruct (c self) as [[a|e] s'].
  - simpl in Hc. rewrite <- Hc. apply (Hk a s').
  - exact Hc.
Qed.

Ltac keep :=
  repeat first
    [ apply keeps_ret | apply keeps_get | apply keeps_lift
    | apply keeps_modify; intros []; reflexivity
    | apply keeps_bind; [|intros ?]
    | match goal with |- keeps _ (if ?b then _ else _) => destruct b end
    | assumption ].

Lemma rates_keep_inputs :
  keeps measured calculate_heat_capacity_rates /\
  keeps mass_flows calculate_heat_capacity_rates.
Proof. split; unfold calculate_heat_capacity_rates; keep. Qed.

Lemma effectiveness_keeps_inputs :
  keeps measured calculate_effectiveness /\
  keeps mass_flows calculate_effectiveness.
Proof.
  destruct rates_keep_inputs as [H1 H2].
  split; unfold calculate_effectiveness, calculate_actual_heat_transfer,
    calculate_max_heat_transfer; keep.
Qed.

(** X4: no method ever assigns a measured input, a boundary temperature or
    one of the four temperature differences, whether it returns or raises;
    and the methods from [calculate_heat_capacity_rates] on, the NTU solve
    included, leave the three flow fields alone as well: they write [cr]
    and [cmin] and nothing else. *)
Theorem inputs_are_never_written
    (np_exp : float -> float) (np_power : float -> float -> float)
    (hybrd : (float -> float) -> float -> float * hybrd_status)
    (np_tanh : float -> float) self :
  measured (after calculate_water_mass_flow self) = measured self /\
  measured (after calculate_duty self) = measured self /\
  measured (after calculate_air_mass_flow self) = measured self /\
  measured (after (script np_exp np_power hybrd np_tanh) self) = measured self /\
  (measured (after calculate_heat_capacity_rates self) = measured self /\
   mass_flows (after calculate_heat_capacity_rates self) = mass_flows self) /\
  (measured (after calculate_actual_heat_transfer self) = measured self /\
   mass_flows (after calculate_actual_heat_transfer self) = mass_flows self) /\
  (measured (after calculate_max_heat_transfer self) = measured self /\
   mass_flows (after calculate_max_heat_transfer self) = mass_flows self) /\
  (measured (after calculate_effectiveness self) = measured self /\
   mass_flows (after calculate_effectiveness self) = mass_flows self) /\
  (measured (after (calculate_NTU_from_effectiveness np_exp np_power hybrd) self)
     = measured self /\
   mass_flows (after (calculate_NTU_from_effectiveness np_exp np_power hybrd) self)
     = mass_flows self).
Proof.
  destruct rates_keep_inputs as [Hr1 Hr2].
  destruct effectiveness_keeps_inputs as [He1 He2].
  assert (Hd : keeps measured calculate_duty) by (unfold calculate_duty; keep).
  assert (Hw : keeps measured calculate_water_mass_flow)
    by (unfold calculate_water_mass_flow; keep).
  assert (Ha : keeps measured calculate_air_mass_flow)
    by (unfold calculate_air_mass_flow; keep).
  assert (Hqa : keeps measured calculate_actual_heat_transfer /\
                keeps mass_flows calculate_actual_heat_transfer)
    by (split; unfold calculate_actual_heat_transfer; keep).
  assert (Hqm : keeps measured calculate_max_heat_transfer /\
                keeps mass_flows calculate_max_heat_transfer)
    by (split; unfold calculate_max_heat_transfer; keep).
  assert (Hn : keeps measured (calculate_NTU_from_effectiveness np_exp np_power hybrd) /\
               keeps mass_flows (calculate_NTU_from_effectiveness np_exp np_power hybrd))
    by (split; unfold calculate_NTU_from_effectiveness, effectiveness_equation; keep).
  destruct Hqa as [Hqa1 Hqa2], Hqm as [Hqm1 Hqm2], Hn as [Hn1 Hn2].
  assert (Hs : keeps measured (script np_exp np_power hybrd np_tanh))
    by (unfold script; keep).
  repeat split;
    first [apply Hw | apply Hd | apply Ha | apply Hs | apply Hr1 | apply Hr2
          | apply Hqa1 | apply Hqa2 | apply Hqm1 | apply Hqm2
          | apply He1 | apply He2 | apply Hn1 | apply Hn2].
Qed.

(** ** The script, in closed form *)

Section ScriptFacts.
Variable np_exp : float -> float.
Variable np_power : float -> float -> float.
Variable hybrd : (float -> float) -> float -> float * hybrd_status.
Variable np_tanh : float -> float.

(** The script stops at the first zero divisor it meets: the divisor of
    the air mass flow, the hot rate, q_max, or the capacity ratio. *)
Lemma script_run self :
  let mw := water_mass_of self in
  let s1 := with_water self in
  let ma := air_mass_of s1 mw in
  let s2 := fueled self in
  script np_exp np_power hybrd np_tanh self =
  if air_divisor s1 =? 0 then (Raise ZeroDivisionError, s1)
  else if hot_rate s2 mw =? 0 then (Raise ZeroDivisionError, s2)
  else if q_max_of s2 mw ma =? 0 then (Raise ZeroDivisionError, rated s2 mw ma)
  else if cold_rate s2 ma / hot_rate s2 mw =? 0
       then (Raise ZeroDivisionError, rated s2 mw ma)
       else (Ok (report_of np_exp np_power hybrd np_tanh self), rated s2 mw ma).
Proof.
  intros mw s1 ma s2.
  destruct (fueled_reads self) as (Hw1 & Hw2 & Ha2).
  fold mw s1 in Hw1. fold mw s2 in Hw2. fold mw s1 ma s2 in Ha2.
  destruct (rated_flows s2 mw ma Hw2 Ha2) as (Hw3 & Ha3 & Hh3 & Hc3).
  destruct (rated_reads s2 mw ma) as (Hp3 & Hqa3 & Hqm3).
  unfold script.
  rewrite (bind_ok _ _ _ _ _ (calculate_water_mass_flow_run self)). fold mw s1.
  rewrite (bind_ok _ _ _ _ _ (calculate_duty_run s1 mw Hw1)).
  pose proof (calculate_air_mass_flow_run s1 mw Hw1) as Hair.
  destruct (air_divisor s1 =? 0) eqn:Hd.
  { rewrite (bind_raise _ _ _ _ _ Hair). reflexivity. }
  rewrite (bind_ok _ _ _ _ _ Hair). fold ma. change (with_air s1 mw) with s2.
  pose proof (calculate_heat_capacity_rates_run s2 mw ma Hw2 Ha2) as Hr.
  destruct (hot_rate s2 mw =? 0) eqn:Hh.
  { rewrite (bind_raise _ _ _ _ _ Hr). reflexivity. }
  rewrite (bind_ok _ _ _ _ _ Hr).
  pose proof (calculate_actual_heat_transfer_run _ mw ma Hw3 Ha3) as Hqa.
  rewrite Hh3, Hh, Hqa3, rated_again in Hqa.
  rewrite (bind_ok _ _ _ _ _ Hqa).
  pose proof (calculate_max_heat_transfer_run _ mw ma Hw3 Ha3) as Hqm.
  rewrite Hh3, Hh, Hqm3, rated_again in Hqm.
  rewrite (bind_ok _ _ _ _ _ Hqm).
  pose proof (calculate_effectiveness_run _ mw ma Hw3 Ha3) as He.
  rewrite Hh3, Hh, Hqm3, Hqa3, rated_again in He.
  destruct (q_max_of s2 mw ma =? 0) eqn:Hq.
  { rewrite (bind_raise _ _ _ _ _ He). reflexivity. }
  rewrite (bind_ok _ _ _ _ _ He).
  destruct (cold_rate s2 ma / hot_rate s2 mw =? 0) eqn:Hc.
  - assert (Hn : calculate_NTU_from_effectiveness np_exp np_power hybrd (rated s2 mw ma)
                 = (Raise ZeroDivisionError, rated s2 mw ma)).
    { unfold calculate_NTU_from_effectiveness.
      apply bind_raise.
      rewrite (effectiveness_equation_run np_exp np_power _ mw ma ntu_guess Hw3 Ha3);
        rewrite ?Hh3, ?Hqm3, ?Hc3, ?Hqa3, ?rated_again; try assumption.
      rewrite Hc. reflexivity. }
    rewrite (bind_raise _ _ _ _ _ Hn). reflexivity.
  - pose proof (calculate_NTU_from_effectiveness_run np_exp np_power hybrd
                  _ mw ma Hw3 Ha3) as Hn.
    rewrite Hh3, Hqm3, Hc3, Hqa3, rated_again in Hn.
    specialize (Hn Hh Hq Hc).
    rewrite (bind_ok _ _ _ _ _ Hn). reflexivity.
Qed.

End ScriptFacts.

Ltac script_cases np_exp np_power hybrd np_tanh self :=
  unfold returned, after;
  rewrite (script_run np_exp np_power hybrd np_tanh self); cbv zeta;
  destruct (air_divisor (with_water self) =? 0) eqn:Hd;
  [|destruct (hot_rate (fueled self) (water_mass_of self) =? 0) eqn:Hh;
    [|destruct (q_max_of (fueled self) (water_mass_of self)
                 (air_mass_of (with_water self) (water_mass_of self)) =? 0) eqn:Hq;
      [|destruct (cold_rate (fueled self)
                   (air_mass_of (with_water self) (water_mass_of self))
                 / hot_rate (fueled self) (water_mass_of self) =? 0) eqn:Hc]]];
  simpl fst; simpl snd.

(** X5: run on any object, with any solver, the script either prints its
    report or ends in [ZeroDivisionError]; because it computes the water
    mass flow first it never meets a [None], and nothing else can fail. *)
Theorem script_fails_only_by_zero_division
    (np_exp : float -> float) (np_power : float -> float -> float)
    (hybrd : (float -> float) -> float -> float * hybrd_status)
    (np_tanh : float -> float) self :
  (exists rep, returned (script np_exp np_power hybrd np_tanh) self = Ok rep) \/
  returned (script np_exp np_power hybrd np_tanh) self = Raise ZeroDivisionError.
Proof.
  script_cases np_exp np_power hybrd np_tanh self;
    try (right; reflexivity).
  left. eexists. reflexivity.
Qed.

(** X6: the script prints a report exactly when none of its four divisors
    is zero: cp_air * dT_cold * 1000, the hot capacity rate C_h, q_max and
    the capacity ratio C_c / C_h, each as computed from the object's
    inputs. *)
Theorem script_succeeds_iff_divisors_nonzero
    (np_exp : float -> float) (np_power : float -> float -> float)
    (hybrd : (float -> float) -> float -> float * hybrd_status)
    (np_tanh : float -> float) self :
  let mw := water_mass_of self in
  let ma := air_mass_of self mw in
  let C_h := hot_rate self mw in
  let C_c := cold_rate self ma in
  let C_min := if C_h <=? C_c then C_h else C_c in
  (exists rep, returned (script np_exp np_power hybrd np_tanh) self = Ok rep) <->
  (air_specific_heat self * air_temp_change self * 1000 =? 0) = false /\
  (C_h =? 0) = false /\
  (C_min * (T_hot_in self - T_cold_in self) =? 0) = false /\
  (C_c / C_h =? 0) = false.
Proof.
  cbv zeta.
  change (air_specific_heat self * air_temp_change self * 1000)
    with (air_divisor (with_water self)).
  change (hot_rate self (water_mass_of self))
    with (hot_rate (fueled self) (water_mass_of self)).
  change (cold_rate self (air_mass_of self (water_mass_of self)))
    with (cold_rate (fueled self)
            (air_mass_of (with_water self) (water_mass_of self))).
  match goal with
  | |- context [(?p * (T_hot_in self - T_cold_in self))%float] =>
      change (p * (T_hot_in self - T_cold_in self))
        with (q_max_of (fueled self) (water_mass_of self)
                (air_mass_of (with_water self) (water_mass_of self)))
  end.
  script_cases np_exp np_power hybrd np_tanh self;
    (split; [intros [rep H]; try discriminate H; auto
            | intros (H1 & H2 & H3 & H4); try discriminate;
              eexists; reflexivity]).
Qed.

(** X7: whenever the script prints a report, the printed numbers are
    chained as the methods chain them, each from the object's inputs and
    the numbers printed before it, and the object ends up holding the two
    mass flows, the ratio C_c / C_h and the smaller rate that the report
    shows. *)
Theorem script_report_is_consistent
    (np_exp : float -> float) (np_power : float -> float -> float)
    (hybrd : (float -> float) -> float -> float * hybrd_status)
    (np_tanh : float -> float) self rep :
  returned (script np_exp np_power hybrd np_tanh) self = Ok rep ->
  let final := after (script np_exp np_power hybrd np_tanh) self in
  let C_min := if out_C_h rep <=? out_C_c rep then out_C_h rep else out_C_c rep in
  (out_water_mass rep
     = water_flow_rate_L_min self * (1 / 1000) * (1 / 60) * water_density self /\
   out_duty rep
     = out_water_mass rep * water_specific_heat self * water_temp_change self * 1000 /\
   out_air_mass rep
     = out_duty rep / (air_specific_heat self * air_temp_change self * 1000) /\
   out_C_h rep = out_water_mass rep * water_specific_heat self * 1000 /\
   out_C_c rep = out_air_mass rep * air_specific_heat self * 1000 /\
   out_q_actual rep = out_C_h rep * water_temp_change self /\
   out_q_max rep = C_min * (T_hot_in self - T_cold_in self) /\
   out_effectiveness rep = out_q_actual rep / out_q_max rep /\
   out_ntu rep
     = fst (hybrd (residual np_exp np_power (out_effectiveness rep)
                     (out_C_c rep / out_C_h rep)) ntu_guess) /\
   out_UA rep = out_ntu rep * out_C_c rep) /\
  (water_mass_flow_rate final = Some (out_water_mass rep) /\
   air_mass_flow_rate final = Some (out_air_mass rep) /\
   cr final = Some (out_C_c rep / out_C_h rep) /\
   cmin final = Some C_min).
Proof.
  cbv zeta. script_cases np_exp np_power hybrd np_tanh self;
    intros H; try discriminate H.
  inversion H. subst rep. clear. destruct self. repeat split.
Qed.

Lemma script_report_is_consistent_witness :
  let rep := report_of (fun x => x) (fun x _ => x) stalled_hybrd (fun x => x)
               (init no_args) in
  let final := after (script (fun x => x) (fun x _ => x) stalled_hybrd (fun x => x))
                     (init no_args) in
  let C_min := if out_C_h rep <=? out_C_c rep then out_C_h rep else out_C_c rep in
  (out_water_mass rep = 2.10 * (1 / 1000) * (1 / 60) * 1000.0 /\
   out_duty rep = out_water_mass rep * 4.18 * (47.4 - 46.4) * 1000 /\
   out_air_mass rep = out_duty rep / (1.005 * (43.0 - 25.5) * 1000) /\
   out_C_h rep = out_water_mass rep * 4.18 * 1000 /\
   out_C_c rep = out_air_mass rep * 1.005 * 1000 /\
   out_q_actual rep = out_C_h rep * (47.4 - 46.4) /\
   out_q_max rep = C_min * (47.4 - 25.5) /\
   out_effectiveness rep = out_q_actual rep / out_q_max rep /\
   out_ntu rep
     = fst (stalled_hybrd (residual (fun x => x) (fun x _ => x) (out_effectiveness rep)
                     (out_C_c rep / out_C_h rep)) ntu_guess) /\
   out_UA rep = out_ntu rep * out_C_c rep) /\
  (water_mass_flow_rate final = Some (out_water_mass rep) /\
   air_mass_flow_rate final = Some (out_air_mass rep) /\
   cr final = Some (out_C_c rep / out_C_h rep) /\
   cmin final = Some C_min).
Proof.
  apply (script_report_is_consistent (fun x => x) (fun x _ => x) stalled_hybrd
           (fun x => x) (init no_args)).
  vm_compute. reflexivity.
Defined.

(** X8: what the script prints depends on eight numbers of the object only:
    the flow rate, the density, the two specific heats, the two inlet
    temperatures and the hot-side and cold-side temperature changes.  The
    outlet temperatures, [deltaT1], [deltaT2] and whatever the five cached
    fields held before have no influence. *)
Theorem script_reads_eight_inputs
    (np_exp : float -> float) (np_power : float -> float -> float)
    (hybrd : (float -> float) -> float -> float * hybrd_status)
    (np_tanh : float -> float) self other :
  consulted self = consulted other ->
  returned (script np_exp np_power hybrd np_tanh) self
  = returned (script np_exp np_power hybrd np_tanh) other.
Proof.
  intros H. unfold returned.
  rewrite (script_run np_exp np_power hybrd np_tanh self).
  rewrite (script_run np_exp np_power hybrd np_tanh other). cbv zeta.
  destruct self, other. unfold consulted in H. simpl in H.
  inversion H. subst.
  repeat match goal with
         | |- fst (if ?b then _ else _) = fst (if ?b' then _ else _) =>
             change b' with b; destruct b; [reflexivity|]
         end.
  reflexivity.
Qed.

Lemma script_reads_eight_inputs_witness :
  returned (script (fun x => x) (fun x _ => x) stalled_hybrd (fun x => x))
           (init (temperatures 47.4 10 25.5 90))
  = returned (script (fun x => x) (fun x _ => x) stalled_hybrd (fun x => x))
             (after flows (init no_args)).
Proof.
  exact (script_reads_eight_inputs (fun x => x) (fun x _ => x) stalled_hybrd
           (fun x => x) (init (temperatures 47.4 10 25.5 90))
           (after flows (init no_args)) eq_refl).
Defined.

(** ** Degenerate inputs *)

(** Two equal finite numbers differ by a zero. *)
Lemma sub_equal_is_zero (x y : float) :
  Py.isfinite x = true -> (x =? y) = true -> (x - y =? 0) = true.
Proof.
  rewrite FloatFacts.isfinite_spec, eqb_spec, FloatFacts.eqb_zero_spec, sub_spec.
  unfold SFeqb, SF64sub.
  destruct (Prim2SF x) as [sx|sx| |sx mx ex], (Prim2SF y) as [sy|sy| |sy my ey];
    simpl; try congruence;
    try (destruct sx, sy; simpl; congruence);
    try (destruct sx; simpl; congruence);
    try (destruct sy; simpl; congruence).
  intros _ H.
  assert (Hs : sx = sy /\ ex = ey /\ mx = my).
  { destruct sx, sy; try discriminate H;
      destruct (ex ?= ey)%Z eqn:He; try discriminate H;
      apply Z.compare_eq in He;
      change (Pos.compare_cont Eq mx my) with (Pos.compare mx my) in H;
      destruct (mx ?= my)%positive eqn:Hm; try discriminate H;
      apply Pos.compare_eq in Hm; auto. }
  destruct Hs as (-> & -> & ->).
  clear H. rewrite Z.min_id. unfold shl_align.
  rewrite ?Z.sub_diag. simpl fst. rewrite ?Z.sub_diag. reflexivity.
Qed.

(** X9: with a zero water flow rate, and a finite density and water
    specific heat, the script ends in [ZeroDivisionError] whatever the
    other inputs and the solver: the water mass flow and the hot capacity
    rate are zero, and the capacity ratio divides by the hot rate. *)
Theorem zero_water_flow_stops_the_script
    (np_exp : float -> float) (np_power : float -> float -> float)
    (hybrd : (float -> float) -> float -> float * hybrd_status)
    (np_tanh : float -> float) self :
  (water_flow_rate_L_min self =? 0) = true ->
  Py.isfinite (water_density self) = true ->
  Py.isfinite (water_specific_heat self) = true ->
  (water_mass_of self =? 0) = true /\
  (hot_rate self (water_mass_of self) =? 0) = true /\
  returned (script np_exp np_power hybrd np_tanh) self = Raise ZeroDivisionError.
Proof.
  intros Hf Hd Hc.
  assert (Hm : (water_mass_of self =? 0) = true).
  { unfold water_mass_of, water_volume_of.
    apply FloatFacts.mul_zero_finite; [|exact Hd].
    apply FloatFacts.mul_zero_finite; [|reflexivity].
    apply FloatFacts.mul_zero_finite; [|reflexivity].
    exact Hf. }
  assert (Hh : (hot_rate self (water_mass_of self) =? 0) = true).
  { unfold hot_rate.
    apply FloatFacts.mul_zero_finite; [|reflexivity].
    apply FloatFacts.mul_zero_finite; [|exact Hc].
    exact Hm. }
  repeat split; try assumption.
  unfold returned. rewrite script_run. cbv zeta.
  destruct (air_divisor (with_water self) =? 0); [reflexivity|].
  change (hot_rate (fueled self) (water_mass_of self))
    with (hot_rate self (water_mass_of self)).
  rewrite Hh. reflexivity.
Qed.

Lemma zero_water_flow_stops_the_script_witness :
  (water_mass_of (init (flow_rate 0)) =? 0) = true /\
  (hot_rate (init (flow_rate 0)) (water_mass_of (init (flow_rate 0))) =? 0) = true /\
  returned (script (fun x => x) (fun x _ => x) stalled_hybrd (fun x => x))
           (init (flow_rate 0)) = Raise ZeroDivisionError.
Proof.
  exact (zero_water_flow_stops_the_script (fun x => x) (fun x _ => x)
           stalled_hybrd (fun x => x) (init (flow_rate 0))
           eq_refl eq_refl eq_refl).
Defined.

(** X10: with equal, finite inlet temperatures, both mass flows set, a
    nonzero hot capacity rate and a finite smaller rate,
    [calculate_effectiveness] ends in [ZeroDivisionError]; the failure is
    not atomic: [cr] and [cmin] have been written by then. *)
Theorem equal_inlets_raise_after_writing self mw ma :
  water_mass_flow_rate self = Some mw ->
  air_mass_flow_rate self = Some ma ->
  (hot_rate self mw =? 0) = false ->
  Py.isfinite (picked_rate self mw ma) = true ->
  Py.isfinite (T_hot_in self) = true ->
  (T_hot_in self =? T_cold_in self) = true ->
  returned calculate_effectiveness self = Raise ZeroDivisionError /\
  cr (after calculate_effectiveness self)
    = Some (cold_rate self ma / hot_rate self mw) /\
  cmin (after calculate_effectiveness self) = Some (picked_rate self mw ma).
Proof.
  intros Hw Ha Hh Hp Ht He. unfold returned, after.
  rewrite (calculate_effectiveness_run self mw ma Hw Ha), Hh.
  assert (Hq : (q_max_of self mw ma =? 0) = true).
  { unfold q_max_of. apply FloatFacts.mul_finite_zero; [exact Hp|].
    apply sub_equal_is_zero; assumption. }
  rewrite Hq. simpl fst. simpl snd. destruct self; repeat split.
Qed.

Lemma equal_inlets_raise_after_writing_witness :
  let self := after flows (init (temperatures 47.4 46.4 47.4 43.0)) in
  returned calculate_effectiveness self = Raise ZeroDivisionError /\
  cr (after calculate_effectiveness self) = Some (8.36 / 146.3) /\
  cmin (after calculate_effectiveness self) = Some 8.36.
Proof.
  exact (equal_inlets_raise_after_writing
           (after flows (init (temperatures 47.4 46.4 47.4 43.0)))
           0.035000000000000003 0.0083184079601990053
           eq_refl eq_refl eq_refl eq_refl eq_refl eq_refl).
Defined.

(** ** The closure seen by the solver *)

(** X11: once the closure has returned at one NTU, it returns at every NTU,
    with one and the same effectiveness and capacity ratio in the residual,
    and it leaves the object as the first call left it: however often the
    solver calls it, it is a fixed function of NTU. *)
Theorem closure_is_a_fixed_function
    (np_exp : float -> float) (np_power : float -> float -> float)
    self x v :
  returned (effectiveness_equation np_exp np_power x) self = Ok v ->
  exists eps c,
    v = residual np_exp np_power eps c x /\
    forall y,
      effectiveness_equation np_exp np_power y
        (after (effectiveness_equation np_exp np_power x) self)
      = (Ok (residual np_exp np_power eps c y),
         after (effectiveness_equation np_exp np_power x) self).
Proof.
  intros H.
  destruct (effectiveness_equation_repeatable np_exp np_power self x v H)
    as (eps & c & Hrep).
  exists eps, c. split; [|exact Hrep].
  (* the first call's own value: run the closure once more at [x] *)
  unfold returned, after in *.
  destruct (water_mass_flow_rate self) as [mw|] eqn:Hw;
    [|exfalso; revert H; unfold effectiveness_equation; run_method;
      rewrite Hw; discriminate].
  destruct (air_mass_flow_rate self) as [ma|] eqn:Ha;
    [|exfalso; revert H; unfold effectiveness_equation; run_method;
      rewrite Hw, Ha; discriminate].
  destruct (hot_rate self mw =? 0) eqn:Hh;
    [exfalso; revert H; unfold effectiveness_equation; unfold bind at 1;
     rewrite (calculate_effectiveness_run self mw ma Hw Ha), Hh; discriminate|].
  destruct (q_max_of self mw ma =? 0) eqn:Hq;
    [exfalso; revert H; unfold effectiveness_equation; unfold bind at 1;
     rewrite (calculate_effectiveness_run self mw ma Hw Ha), Hh, Hq; discriminate|].
  specialize (Hrep x).
  rewrite (effectiveness_equation_run np_exp np_power self mw ma x Hw Ha Hh Hq)
    in H, Hrep.
  destruct (cold_rate self ma / hot_rate self mw =? 0) eqn:Hc;
    [discriminate H|].
  simpl in H, Hrep.
  rewrite (effectiveness_equation_stable np_exp np_power self mw ma x Hw Ha Hh Hq)
    in Hrep.
  rewrite (effectiveness_equation_run np_exp np_power self mw ma x Hw Ha Hh Hq), Hc
    in Hrep.
  inversion H. inversion Hrep. congruence.
Qed.

Lemma closure_is_a_fixed_function_witness :
  exists eps c,
    61.70091324200915 = residual (fun x => x) (fun x _ => x) eps c 3
    /\
    forall y,
      effectiveness_equation (fun x => x) (fun x _ => x) y
        (after (effectiveness_equation (fun x => x) (fun x _ => x) 3)
               (after flows (init no_args)))
      = (Ok (residual (fun x => x) (fun x _ => x) eps c y),
         after (effectiveness_equation (fun x => x) (fun x _ => x) 3)
               (after flows (init no_args))).
Proof.
  apply (closure_is_a_fixed_function (fun x => x) (fun x _ => x)
           (after flows (init no_args)) 3).
  vm_compute. reflexivity.
Defined.

(** * The round trip through the solver *)

Local Open Scope float_scope.

(** C5: the round trip fails on an object in range.  With a hot inlet at
    1073.4 the effectiveness is 0.0167 and the capacity ratio 0.0571; a
    solver that makes no progress from the seed hands back NTU = 1.0, the
    method returns it, and the correlation there gives 0.6217: the residual
    is 0.605, against the 1e-6 of the round trip. *)
Theorem round_trip_fails_at_low_effectiveness :
  returned calculate_effectiveness low_effectiveness
    = Ok 0.016700066800267203 /\
  cr (after calculate_effectiveness low_effectiveness)
    = Some 0.057142857142857134 /\
  returned (calculate_NTU_from_effectiveness exp_series pow_at_one stalled_at_seed)
           low_effectiveness = Ok 1 /\
  correlation exp_series pow_at_one 0.057142857142857134 1
    = 0.62166116749685585 /\
  residual exp_series pow_at_one 0.016700066800267203 0.057142857142857134 1
    = 0.60496110069658859 /\
  ~ round_trip_holds exp_series pow_at_one stalled_at_seed low_effectiveness.
Proof.
  assert (P1 : returned calculate_effectiveness low_effectiveness
               = Ok 0.016700066800267203) by (vm_compute; reflexivity).
  assert (P2 : cr (after calculate_effectiveness low_effectiveness)
               = Some 0.057142857142857134) by (vm_compute; reflexivity).
  assert (P3 : returned (calculate_NTU_from_effectiveness exp_series pow_at_one
                           stalled_at_seed) low_effectiveness = Ok 1)
    by (vm_compute; reflexivity).
  repeat split; try assumption; try (vm_compute; reflexivity).
  intros H.
  specialize (H _ _ _ P1 P2 eq_refl eq_refl eq_refl eq_refl P3).
  vm_compute in H. discriminate H.
Qed.
